(** * go-concurrency-perf: a shallow embedding of [main.go]

    The program benchmarks a simulated mixed CPU/network workload under a
    bounded number of goroutines.  This development embeds

    - [doCpuWork], [doNetworkWork] and [doWork] (the simulated request) in a
      small state-and-panic monad over a simulated wall clock and a
      [strings.Builder];
    - [runBenchmark] as a baseline phase, an interleaving semantics of the
      launching loop, the worker goroutines, the weighted semaphore and the
      buffered channel, and the aggregation of the collected results into a
      [BenchmarkResult] (with IEEE binary64 arithmetic for Go's [float64]);
    - [ResponseTimesPercentile], which forwards to a third-party function.

    Go's [int] and [time.Duration] are 64-bit two's complement integers,
    modelled as [Z] with the wrap-around written out. *)

From Stdlib Require Import String DecimalString ZArith List Lia Bool Floats
  Permutation.
Import ListNotations.
Local Open Scope Z_scope.

(* ------------------------------------------------------------------ *)
(** ** Go integers *)

Module Go.

Definition min_int64 : Z := - 2 ^ 63.
Definition max_int64 : Z := 2 ^ 63 - 1.

(** The values of [int], [int64] and [time.Duration]. *)
Definition in_int64 (z : Z) : Prop := min_int64 <= z <= max_int64.

(** Two's complement wrap-around of an integer result. *)
Definition wrap64 (z : Z) : Z := (z + 2 ^ 63) mod 2 ^ 64 - 2 ^ 63.

(** [a + b] on [int]. *)
Definition add (a b : Z) : Z := wrap64 (a + b).

(** [a / b] on [int] and [time.Duration]: truncated toward zero; a zero
    divisor is the run-time panic "integer divide by zero" ([None]). *)
Definition quo (a b : Z) : option Z :=
  if b =? 0 then None else Some (wrap64 (Z.quot a b)).

(** Saturation of [Time.Sub]: the result is clamped to the range of
    [time.Duration]. *)
Definition clamp64 (z : Z) : Z := Z.max min_int64 (Z.min max_int64 z).

(** [float64(z)] for an integer [z]: the nearest binary64 value, ties to
    even. *)
Definition float64 (z : Z) : float :=
  SF2Prim (binary_normalize prec emax z 0 false).

End Go.

(* ------------------------------------------------------------------ *)
(** ** The wall clock and the trace *)

(** The clock as one goroutine sees it: [clock] is the reading, in
    nanoseconds, that the next [time.Now()] returns, and every reading
    advances it by [tick] nanoseconds (at least one).  Go's monotonic clock
    promises only that its readings do not decrease: two of them may
    coincide.  The clock here is one on which they never do, which is what
    lets the polling loop of [doCpuWork] end; what is stated below of the
    order of the time stamps, of elapsed times and of the longest request
    holds of readings that coincide as well. *)
Record World : Type := mkWorld { clock : Z; tick : positive }.

Definition advance (w : World) (d : Z) : World :=
  {| clock := clock w + d; tick := tick w |}.

(** One line written to a [strings.Builder] by [doCpuWork] or
    [doNetworkWork].  A line keeps the arguments of its [fmt.Sprintf]: the
    time stamp, the request name, the commanded duration and, for a closing
    line, the measured duration. *)
Inductive Line : Type :=
| CpuStart (stamp : Z) (name : string) (workTime : Z)
| CpuEnd (stamp : Z) (name : string) (workTime took : Z)
| NetStart (stamp : Z) (name : string) (networkTime : Z)
| NetEnd (stamp : Z) (name : string) (networkTime took : Z).

(** The contents of a [strings.Builder], oldest line first. *)
Definition Builder : Type := list Line.

(* ------------------------------------------------------------------ *)
(** ** A monad for sequential Go code: state, panics and loop fuel *)

Inductive Panic : Type :=
| DivideByZero            (* runtime error: integer divide by zero *)
| ChanSizeOutOfRange      (* makechan: size out of range *)
| SendOnClosedChannel     (* send on closed channel *)
| CloseOfClosedChannel    (* close of closed channel *)
| ReleasedMoreThanHeld.   (* semaphore: released more than held *)

Inductive result (A : Type) : Type :=
| Ok (a : A)
| Panics (p : Panic)
| OutOfFuel.
Arguments Ok {A} a.
Arguments Panics {A} p.
Arguments OutOfFuel {A}.

(** What a running request can touch: its view of the clock and the builder
    it was handed. *)
Record St : Type := mkSt { world : World; sb : Builder }.

Definition M (A : Type) : Type := St -> result (A * St).

Definition ret {A} (a : A) : M A := fun s => Ok (a, s).

Definition bind {A B} (c : M A) (k : A -> M B) : M B :=
  fun s => match c s with
           | Ok (a, s') => k a s'
           | Panics p => Panics p
           | OutOfFuel => OutOfFuel
           end.

Definition panic {A} (p : Panic) : M A := fun _ => Panics p.
Definition out_of_fuel {A} : M A := fun _ => OutOfFuel.

Declare Scope go_scope.
Delimit Scope go_scope with go.
Notation "x <- c ;; k" := (bind c (fun x => k))
  (at level 61, c at next level, right associativity) : go_scope.
Notation "c ;; k" := (bind c (fun _ => k))
  (at level 61, right associativity) : go_scope.
Local Open Scope go_scope.

(** [time.Now()]. *)
Definition time_Now : M Z :=
  fun s => Ok (clock (world s),
               {| world := advance (world s) (Z.pos (tick (world s))); sb := sb s |}).

(** [t.Sub(u)], saturating. *)
Definition time_Sub (t u : Z) : Z := Go.clamp64 (t - u).

(** [time.Since(start)], that is [time.Now().Sub(start)]. *)
Definition time_Since (start : Z) : M Z :=
  now <- time_Now ;; ret (time_Sub now start).

(** [time.Sleep(d)]: the goroutine is suspended for [d]; a negative or zero
    duration returns at once. *)
Definition time_Sleep (d : Z) : M unit :=
  fun s => Ok (tt, {| world := advance (world s) (Z.max d 0); sb := sb s |}).

(** [sb.WriteString(line)]. *)
Definition WriteString (l : Line) : M unit :=
  fun s => Ok (tt, {| world := world s; sb := sb s ++ [l] |}).

(** An integer division whose zero divisor panics. *)
Definition div (a b : Z) : M Z :=
  match Go.quo a b with
  | Some q => ret q
  | None => panic DivideByZero
  end.

(** [for i := from; i < from + n; i++ { body i }], [n] iterations. *)
Fixpoint for_loop (n : nat) (i : Z) (body : Z -> M unit) : M unit :=
  match n with
  | O => ret tt
  | S n' => body i ;; for_loop n' (i + 1) body
  end.

(* ------------------------------------------------------------------ *)
(** ** The simulated request *)

(** The polling loop of [doCpuWork]: read the clock until [workTime] has
    passed since [start].  [fuel] bounds the number of further polls. *)
Fixpoint busy_loop (fuel : nat) (start workTime : Z) : M (Z * Z) :=
  end_ <- time_Now ;;
  let duration := time_Sub end_ start in
  if duration >=? workTime then ret (end_, duration)
  else match fuel with
       | O => out_of_fuel
       | S fuel' => busy_loop fuel' start workTime
       end.

Definition doCpuWork (workTime : Z) (name : string) : M unit :=
  start <- time_Now ;;
  r <- busy_loop (Z.to_nat workTime) start workTime ;;
  WriteString (CpuStart start name workTime) ;;
  WriteString (CpuEnd (fst r) name workTime (snd r)).

Definition doNetworkWork (networkTime : Z) (name : string) : M unit :=
  start <- time_Now ;;
  WriteString (NetStart start name networkTime) ;;
  time_Sleep networkTime ;;
  end_ <- time_Now ;;
  let duration := time_Sub end_ start in
  WriteString (NetEnd end_ name networkTime duration).

Definition doWork (workTime networkTime splits : Z) (name : string) : M Z :=
  start <- time_Now ;;
  d <- div workTime (Go.add splits 1) ;;
  doCpuWork d name ;;
  for_loop (Z.to_nat splits) 0
    (fun _ =>
       dn <- div networkTime splits ;;
       doNetworkWork dn name ;;
       dc <- div workTime (Go.add splits 1) ;;
       doCpuWork dc name) ;;
  time_Since start.

(** The phases of a request, each with its commanded duration. *)
Inductive Phase : Type :=
| Cpu (d : Z)
| Net (d : Z).

(** Reading the phases back from a trace: a phase is an opening line
    followed by its closing line, for the same commanded duration.  [None]
    when the trace is not such a sequence of pairs. *)
Fixpoint trace_phases (t : Builder) : option (list Phase) :=
  match t with
  | [] => Some []
  | CpuStart _ _ d :: CpuEnd _ _ d' _ :: t' =>
      if d =? d' then option_map (cons (Cpu d)) (trace_phases t') else None
  | NetStart _ _ d :: NetEnd _ _ d' _ :: t' =>
      if d =? d' then option_map (cons (Net d)) (trace_phases t') else None
  | _ => None
  end.

(** [s] rounds of network slice then CPU slice after a first CPU slice. *)
Fixpoint rounds (s : nat) (dc dn : Z) : list Phase :=
  match s with
  | O => []
  | S s' => Net dn :: Cpu dc :: rounds s' dc dn
  end.

Definition alternation (s : nat) (dc dn : Z) : list Phase :=
  Cpu dc :: rounds s dc dn.

Definition is_cpu (p : Phase) : bool :=
  match p with Cpu _ => true | Net _ => false end.

Definition duration_of (p : Phase) : Z :=
  match p with Cpu d | Net d => d end.


Definition cpu_phases (ps : list Phase) : list Phase := filter is_cpu ps.
Definition net_phases (ps : list Phase) : list Phase :=
  filter (fun p => negb (is_cpu p)) ps.

(** The total duration commanded of a list of phases. *)
Definition commanded (ps : list Phase) : Z :=
  fold_right (fun p acc => duration_of p + acc) 0 ps.

(** The name [fmt.Sprintf("Request %d", x)]. *)
Definition request_name (x : Z) : string :=
  ("Request " ++ NilEmpty.string_of_int (Z.to_int x))%string.

(** A request run on its own builder: the elapsed time and the trace. *)
Definition run_request (workTime networkTime splits : Z) (name : string)
    (w : World) : result (Z * Builder) :=
  match doWork workTime networkTime splits name {| world := w; sb := [] |} with
  | Ok (elapsed, s) => Ok (elapsed, sb s)
  | Panics p => Panics p
  | OutOfFuel => OutOfFuel
  end.

(* ------------------------------------------------------------------ *)
(** ** The benchmark *)

Record WorkResult : Type := mkWorkResult { timeTaken : Z; output : Builder }.

(** The zero value of [WorkResult], which [var longestRequest WorkResult]
    starts from. *)
Definition zero_WorkResult : WorkResult := {| timeTaken := 0; output := [] |}.

Record BenchmarkResult : Type := mkBenchmarkResult {
  WorkTime : Z;
  NetworkTime : Z;
  Iterations : Z;
  NumCoroutines : Z;
  ThroughputRps : float;
  Speedup : float;
  CpuUtilization : float;
  ResponseTimesMs : list float;
  LongestRequest : Builder
}.

Definition Millisecond : Z := 1000000.
Definition Second : Z := 1000000000.

(** [d.Seconds()] of the standard library: the whole seconds plus the
    remaining nanoseconds over [1e9], in [float64]. *)
Definition Seconds (d : Z) : float :=
  let sec := Z.quot d Second in
  let nsec := Z.rem d Second in
  (Go.float64 sec + Go.float64 nsec / 1e9)%float.

(** The steps of the concurrent phase, as a scheduler interleaves them. *)
Inductive Event : Type :=
| Launch                      (* main: [sem.Acquire] returns, [go func(x)] *)
| Work (g : Z) (w : World)    (* goroutine [g]: [doWork], seen through the
                                 clock [w], and the send on [c] *)
| Release (g : Z)             (* goroutine [g]: [sem.Release(1)] *)
| Receive                     (* main: one iteration of [range c] *)
| Elapse (d : N).             (* [d] nanoseconds pass on main's clock *)

(** The state of the concurrent phase. *)
Record Run : Type := mkRun {
  main : World;                   (* main's view of the clock *)
  x : Z;                          (* the counter of the launching loop *)
  cur : Z;                        (* the semaphore's [cur]: permits held *)
  working : list Z;               (* goroutines inside [doWork] *)
  sent : list Z;                  (* goroutines past the send, before the release *)
  c : list WorkResult;            (* the buffer of the channel, oldest first *)
  closed : bool;                  (* [close(c)] has run *)
  responseTimesMs : list float;
  longestRequest : WorkResult;
  received : list WorkResult      (* history: the values received, in order *)
}.

Inductive step_result : Type :=
| Next (r : Run)
| Crash (p : Panic)
| Blocked.

Inductive outcome (A : Type) : Type :=
| Returned (a : A)
| Panicked (p : Panic)
| NotReturned.
Arguments Returned {A} a.
Arguments Panicked {A} p.
Arguments NotReturned {A}.

Definition mem (g : Z) (l : list Z) : bool := existsb (Z.eqb g) l.
Definition drop (g : Z) (l : list Z) : list Z :=
  filter (fun h => negb (g =? h)) l.

Section Benchmark.

(** The arguments of [runBenchmark]. *)
Variables workTime networkTime numGreenThreads splits
          baselineIterations iterations : Z.

(** The baseline: [baselineIterations] requests one after another, all on
    the builder [dummySb]. *)
Definition baseline : M Z :=
  start <- time_Now ;;
  for_loop (Z.to_nat baselineIterations) 0
    (fun x => doWork workTime networkTime splits (request_name x) ;; ret tt) ;;
  time_Since start.

Definition initial (w : World) : Run :=
  {| main := w; x := 0; cur := 0; working := []; sent := []; c := [];
     closed := false; responseTimesMs := [];
     longestRequest := zero_WorkResult; received := [] |}.

(** One step.  [Blocked] when the step cannot be taken in this state: the
    goroutine that would take it is suspended, or is not at that point. *)
Definition step (r : Run) (e : Event) : step_result :=
  match e with
  | Launch =>
      (* [x < iterations], and [sem.Acquire(ctx, 1)] returns once
         [size - cur >= 1]; main is the only goroutine that acquires *)
      if (x r <? iterations) && (1 <=? numGreenThreads - cur r) then
        Next {| main := main r; x := Go.add (x r) 1; cur := cur r + 1;
                working := working r ++ [x r]; sent := sent r; c := c r;
                closed := closed r; responseTimesMs := responseTimesMs r;
                longestRequest := longestRequest r; received := received r |}
      else Blocked
  | Work g w =>
      if mem g (working r) then
        match run_request workTime networkTime splits (request_name g) w with
        | Ok (t, out) =>
            if closed r then Crash SendOnClosedChannel
            else if Z.of_nat (length (c r)) <? iterations then
              Next {| main := main r; x := x r; cur := cur r;
                      working := drop g (working r); sent := sent r ++ [g];
                      c := c r ++ [{| timeTaken := t; output := out |}];
                      closed := closed r; responseTimesMs := responseTimesMs r;
                      longestRequest := longestRequest r; received := received r |}
            else Blocked
        | Panics p => Crash p
        | OutOfFuel => Blocked
        end
      else Blocked
  | Release g =>
      if mem g (sent r) then
        if cur r - 1 <? 0 then Crash ReleasedMoreThanHeld
        else
          Next {| main := main r; x := x r; cur := cur r - 1;
                  working := working r; sent := drop g (sent r); c := c r;
                  closed := closed r; responseTimesMs := responseTimesMs r;
                  longestRequest := longestRequest r; received := received r |}
      else Blocked
  | Receive =>
      (* the launching loop is over, and a value is in the buffer *)
      if iterations <=? x r then
        match c r with
        | result :: rest =>
            let longest :=
              if timeTaken result >? timeTaken (longestRequest r)
              then result else longestRequest r in
            let times :=
              responseTimesMs r ++
                [(Go.float64 (timeTaken result) / Go.float64 Millisecond)%float] in
            let full := Z.of_nat (length times) =? iterations in
            if full && closed r then Crash CloseOfClosedChannel
            else
              Next {| main := main r; x := x r; cur := cur r;
                      working := working r; sent := sent r; c := rest;
                      closed := closed r || full; responseTimesMs := times;
                      longestRequest := longest;
                      received := received r ++ [result] |}
        | [] => Blocked
        end
      else Blocked
  | Elapse d =>
      Next {| main := advance (main r) (Z.of_N d); x := x r; cur := cur r;
              working := working r; sent := sent r; c := c r;
              closed := closed r; responseTimesMs := responseTimesMs r;
              longestRequest := longestRequest r; received := received r |}
  end.

(** The steps of a schedule taken one after another; [None] when one of
    them cannot be taken or crashes the program. *)
Fixpoint exec (r : Run) (evs : list Event) : option Run :=
  match evs with
  | [] => Some r
  | e :: evs' =>
      match step r e with
      | Next r' => exec r' evs'
      | _ => None
      end
  end.

(** [range c] is over: the launching loop has ended, the channel is closed
    and its buffer is empty. *)
Definition done (r : Run) : bool :=
  (iterations <=? x r) && closed r &&
  match c r with [] => true | _ => false end.

(** Main's run through the concurrent phase under a schedule: it leaves the
    receiving loop as soon as that loop is over. *)
Fixpoint run_events (r : Run) (evs : list Event) : outcome Run :=
  if done r then Returned r
  else
    match evs with
    | [] => NotReturned
    | e :: evs' =>
        match step r e with
        | Next r' => run_events r' evs'
        | Crash p => Panicked p
        | Blocked => NotReturned
        end
    end.

(** The last lines of [runBenchmark]: the metrics and the result. *)
Definition report (baselineDuration totalDuration : Z)
    (responseTimesMs : list float) (longestRequest : WorkResult)
  : BenchmarkResult :=
  let baselineRps := (Go.float64 baselineIterations / Seconds baselineDuration)%float in
  let resultRps := (Go.float64 iterations / Seconds totalDuration)%float in
  let maxRps := (1 / Seconds workTime)%float in
  {| WorkTime := workTime;
     NetworkTime := networkTime;
     Iterations := iterations;
     NumCoroutines := numGreenThreads;
     ThroughputRps := resultRps;
     Speedup := (resultRps / baselineRps)%float;
     CpuUtilization := (resultRps * 100 / maxRps)%float;
     ResponseTimesMs := responseTimesMs;
     LongestRequest := output longestRequest |}.

(** What one run measures besides its result: the two wall durations and
    the results in the order they were received. *)
Record Measured : Type := mkMeasured {
  benchmarkResult : BenchmarkResult;
  baselineDuration : Z;
  totalDuration : Z;
  collected : list WorkResult
}.

(** [runBenchmark] on main's clock [w] under the schedule [evs]. *)
Definition runBenchmark_measured (w : World) (evs : list Event)
  : outcome Measured :=
  match baseline {| world := w; sb := [] |} with
  | Panics p => Panicked p
  | OutOfFuel => NotReturned
  | Ok (baselineDuration, s1) =>
      let start := clock (world s1) in
      let w2 := advance (world s1) (Z.pos (tick (world s1))) in
      (* [make(chan WorkResult, iterations)] *)
      if iterations <? 0 then Panicked ChanSizeOutOfRange
      else
        match run_events (initial w2) evs with
        | Panicked p => Panicked p
        | NotReturned => NotReturned
        | Returned r =>
            let totalDuration := time_Sub (clock (main r)) start in
            Returned
              {| benchmarkResult :=
                   report baselineDuration totalDuration
                     (responseTimesMs r) (longestRequest r);
                 baselineDuration := baselineDuration;
                 totalDuration := totalDuration;
                 collected := received r |}
        end
  end.

Definition runBenchmark (w : World) (evs : list Event)
  : outcome BenchmarkResult :=
  match runBenchmark_measured w evs with
  | Returned m => Returned (benchmarkResult m)
  | Panicked p => Panicked p
  | NotReturned => NotReturned
  end.

End Benchmark.

(** The permits outstanding after a sequence of steps: the acquires that no
    release has followed yet. *)
Fixpoint outstanding (evs : list Event) : Z :=
  match evs with
  | [] => 0
  | Launch :: evs' => outstanding evs' + 1
  | Release _ :: evs' => outstanding evs' - 1
  | _ :: evs' => outstanding evs'
  end.


(* ------------------------------------------------------------------ *)
(** ** The percentile accessor *)

Section Percentile.

(** [stats.Percentile] of the package [github.com/montanaflynn/stats]: not
    code of this program.  It returns a value and an error. *)
Variable error : Type.
Variable stats_Percentile : list float -> float -> float * option error.

(** The accessor keeps the value and drops the error ([val, _ := ...]); as
    every Go call it either returns or panics, and it has no panic of its
    own. *)
Definition ResponseTimesPercentile (b : BenchmarkResult) (pct : float)
  : result float :=
  let (val, _) := stats_Percentile (ResponseTimesMs b) pct in
  Ok val.

End Percentile.

(* ------------------------------------------------------------------ *)
(** ** Invariants, schedules and inputs used below *)

(** [s'] is [s] after some readings of the clock and the lines [t]. *)
Definition extends (s s' : St) (t : Builder) : Prop :=
  sb s' = sb s ++ t /\
  tick (world s') = tick (world s) /\
  clock (world s) < clock (world s').

(** The goroutines that hold a permit: launched, not yet past the release. *)
Definition in_flight (r : Run) : Z :=
  Z.of_nat (List.length (working r) + List.length (sent r)).

(** What the semaphore keeps true. *)
Definition sem_ok (numGreenThreads : Z) (r : Run) : Prop :=
  0 <= cur r <= numGreenThreads /\ in_flight r <= cur r.

(** One iteration of the receiving loop on [longestRequest]. *)
Definition longer (l res : WorkResult) : WorkResult :=
  if timeTaken res >? timeTaken l then res else l.

(** [longestRequest] after the results [rs] have been received. *)
Definition track (rs : list WorkResult) : WorkResult :=
  fold_left longer rs zero_WorkResult.

(** What the receiving loop keeps true. *)
Definition collect_ok (iterations : Z) (r : Run) : Prop :=
  Forall (fun res => 0 < timeTaken res) (c r) /\
  Forall (fun res => 0 < timeTaken res) (received r) /\
  longestRequest r = track (received r) /\
  List.length (responseTimesMs r) = List.length (received r) /\
  (closed r = true -> iterations <= Z.of_nat (List.length (received r))).

(** Every result, sent or still to come, is that of a goroutine that was
    launched, and no more than [iterations] are launched. *)
Definition count_ok (iterations : Z) (r : Run) : Prop :=
  Z.of_nat (List.length (working r) + List.length (c r)
            + List.length (received r)) <= x r /\
  x r <= Z.max 0 iterations.

(** Nothing has been launched, and nothing can be. *)
Definition idle (r : Run) : Prop :=
  x r = 0 /\ cur r = 0 /\ working r = [] /\ sent r = [] /\
  c r = [] /\ closed r = false.

(** Nothing has been sent, and the channel is open. *)
Definition starved (r : Run) : Prop :=
  sent r = [] /\ c r = [] /\ closed r = false.

(** A schedule that runs [n] requests one at a time, numbered from [g],
    each seeing the clock [w]. *)
Fixpoint one_by_one (n : nat) (g : Z) (w : World) : list Event :=
  match n with
  | O => []
  | S n' => Launch :: Work g w :: Release g :: one_by_one n' (g + 1) w
  end.

(** Seven requests one at a time, received while 599999012ns pass. *)
Definition seven_requests : list Event :=
  one_by_one 7 0 (mkWorld 0 1000)
  ++ repeat Receive 6 ++ [Elapse 599999012; Receive].

(** A function that answers the empty sequence with a value and an error,
    as a stand-in for the library. *)
Definition rejects_empty (l : list float) (pct : float) : float * option unit :=
  match l with
  | [] => (nan, Some tt)
  | v :: _ => (v, None)
  end.

Definition no_latencies : BenchmarkResult :=
  {| WorkTime := 5000000; NetworkTime := 55000000; Iterations := 0;
     NumCoroutines := 1; ThroughputRps := 0; Speedup := 0;
     CpuUtilization := 0; ResponseTimesMs := []; LongestRequest := [] |}.



(* ------------------------------------------------------------------ *)
(** ** Reading a trace *)

Definition stamp_of (l : Line) : Z :=
  match l with
  | CpuStart s _ _ | CpuEnd s _ _ _ | NetStart s _ _ | NetEnd s _ _ _ => s
  end.

Definition name_of (l : Line) : string :=
  match l with
  | CpuStart _ n _ | CpuEnd _ n _ _ | NetStart _ n _ | NetEnd _ n _ _ => n
  end.

(** The duration a line commands: that of the phase it opens. *)
Definition asked (l : Line) : Z :=
  match l with
  | CpuStart _ _ d | NetStart _ _ d => d
  | _ => 0
  end.

Definition total_asked (t : Builder) : Z :=
  fold_right (fun l acc => asked l + acc) 0 t.

(** [Trace name lo t hi]: the lines [t] are phases of the request [name],
    each an opening and a closing line for the same commanded duration;
    the stamps lie in [lo, hi) and grow strictly along [t]; the duration a
    closing line reports is the saturated difference of the two stamps of
    its phase, and is not below the commanded one. *)
Inductive Trace (name : string) : Z -> Builder -> Z -> Prop :=
| Trace_nil lo hi : lo <= hi -> Trace name lo [] hi
| Trace_cpu lo hi s e d t :
    lo <= s -> s < e -> d <= time_Sub e s ->
    Trace name (e + 1) t hi ->
    Trace name lo (CpuStart s name d :: CpuEnd e name d (time_Sub e s) :: t) hi
| Trace_net lo hi s e d t :
    lo <= s -> s < e -> d <= time_Sub e s ->
    Trace name (e + 1) t hi ->
    Trace name lo (NetStart s name d :: NetEnd e name d (time_Sub e s) :: t) hi.

(** [s'] is [s] after the phases [t] of the request [name]: the clock has
    advanced, by the commanded durations at least. *)
Definition traced (name : string) (s s' : St) (t : Builder) : Prop :=
  sb s' = sb s ++ t /\
  tick (world s') = tick (world s) /\
  clock (world s) < clock (world s') /\
  clock (world s) + total_asked t <= clock (world s') /\
  Trace name (clock (world s)) t (clock (world s')).

(** Strictly growing integers. *)
Fixpoint increasing (zs : list Z) : Prop :=
  match zs with
  | z :: ((z' :: _) as zs') => z < z' /\ increasing zs'
  | _ => True
  end.

(** Integers that never decrease. *)
Fixpoint nondecreasing (zs : list Z) : Prop :=
  match zs with
  | z :: ((z' :: _) as zs') => z <= z' /\ nondecreasing zs'
  | _ => True
  end.

(** [Logged name lo t hi]: what the lines [t] of the request [name] show
    whether or not the clock has advanced between two readings.  They are
    phases, each an opening and a closing line for the same commanded
    duration; the stamps lie in [lo, hi] and never decrease along [t]; the
    duration a closing line reports is the saturated difference of the two
    stamps of its phase; and the polling loop has kept a CPU slice from
    ending before that difference reached the commanded duration. *)
Inductive Logged (name : string) : Z -> Builder -> Z -> Prop :=
| Logged_nil lo hi : lo <= hi -> Logged name lo [] hi
| Logged_cpu lo hi s e d t :
    lo <= s -> s <= e -> d <= time_Sub e s ->
    Logged name e t hi ->
    Logged name lo (CpuStart s name d :: CpuEnd e name d (time_Sub e s) :: t) hi
| Logged_net lo hi s e d t :
    lo <= s -> s <= e ->
    Logged name e t hi ->
    Logged name lo (NetStart s name d :: NetEnd e name d (time_Sub e s) :: t) hi.

(* ------------------------------------------------------------------ *)
(** ** Reading a schedule *)

(** The latency that the receiving loop appends for a result. *)
Definition latency_ms (res : WorkResult) : float :=
  (Go.float64 (timeTaken res) / Go.float64 Millisecond)%float.

(** The goroutines of the [Work] steps of a schedule, in order. *)
Fixpoint workers (evs : list Event) : list Z :=
  match evs with
  | [] => []
  | Work g _ :: evs' => g :: workers evs'
  | _ :: evs' => workers evs'
  end.

(** The results that the [Work] steps of a schedule send, in order. *)
Fixpoint sends (workTime networkTime splits : Z) (evs : list Event)
  : list WorkResult :=
  match evs with
  | [] => []
  | Work g w :: evs' =>
      match run_request workTime networkTime splits (request_name g) w with
      | Ok (t, out) =>
          {| timeTaken := t; output := out |}
            :: sends workTime networkTime splits evs'
      | _ => sends workTime networkTime splits evs'
      end
  | _ :: evs' => sends workTime networkTime splits evs'
  end.

(** A step of the program, as opposed to the passing of time. *)
Definition is_step (e : Event) : bool :=
  match e with Elapse _ => false | _ => true end.

Definition steps (evs : list Event) : Z :=
  Z.of_nat (List.length (filter is_step evs)).

(** The requests [0 .. n-1]. *)
Definition requests (n : Z) : list Z := map Z.of_nat (seq 0 (Z.to_nat n)).

(** What a run keeps true of its counters: the goroutines in flight are
    distinct requests launched so far and hold one permit each, every
    launched request is working or has sent, and the channel is closed
    exactly when [iterations] results have been received. *)
Definition tight (iterations : Z) (r : Run) : Prop :=
  NoDup (working r ++ sent r) /\
  Forall (fun g => 0 <= g < x r) (working r ++ sent r) /\
  cur r = Z.of_nat (List.length (working r) + List.length (sent r)) /\
  x r = Z.of_nat (List.length (working r) + List.length (c r)
                  + List.length (received r)) /\
  x r <= iterations /\
  (closed r = true <-> iterations <= Z.of_nat (List.length (received r))) /\
  (List.length (sent r) <= List.length (c r) + List.length (received r))%nat /\
  responseTimesMs r = map latency_ms (received r).

(** The steps taken so far, counted from the state: launches, sends,
    releases and receives. *)
Definition progress (r : Run) : Z :=
  x r
  + Z.of_nat (List.length (c r) + List.length (received r))
  + (Z.of_nat (List.length (c r) + List.length (received r))
     - Z.of_nat (List.length (sent r)))
  + Z.of_nat (List.length (received r)).

(** The requests that have run, [past], and those that are running. *)
Definition distinct (r : Run) (past : list Z) : Prop :=
  0 <= x r /\
  NoDup (past ++ working r) /\
  Forall (fun g => 0 <= g < x r) (past ++ working r).

(** One request launched and sent, its permit still held. *)
Definition one_sent : Run :=
  Eval vm_compute in
    match exec 5000000 55000000 1 5 7 (initial (mkWorld 0 1000))
            [Launch; Work 0 (mkWorld 0 1000)] with
    | Some r => r
    | None => initial (mkWorld 0 1000)
    end.

(* ------------------------------------------------------------------ *)
(** ** The sweep over the concurrency limits *)

(** How [throughputBenchmark] ends before it plots: with the results of its
    runs, by a panic of a run, by a panic of the reporting (the histogram
    could not be made or saved), or not at all. *)
Inductive sweep_outcome : Type :=
| Swept (results : list BenchmarkResult)
| RunPanicked (p : Panic)
| ReportPanicked
| RunNotReturned.

Section Sweep.

(** [outputBenchmarkResult]: it prints and saves a histogram through the
    plotting library, and returns ([true]) or panics ([false]). *)
Variable outputBenchmarkResult : BenchmarkResult -> bool -> bool.

(** The loop of [throughputBenchmark] over the limits; the run for a limit
    gets its clock and its schedule from [runs], and nothing is scheduled
    for a limit that [runs] does not reach. *)
Fixpoint sweep (limits : list Z) (runs : list (World * list Event))
  : sweep_outcome :=
  match limits with
  | [] => Swept []
  | numGreenThreads :: limits' =>
      let '(w, evs) := hd (mkWorld 0 1, []) runs in
      match runBenchmark (5 * Millisecond) (55 * Millisecond)
              numGreenThreads 5 100 100 w evs with
      | Returned result =>
          if outputBenchmarkResult result true then
            match sweep limits' (tl runs) with
            | Swept results => Swept (result :: results)
            | o => o
            end
          else ReportPanicked
      | Panicked p => RunPanicked p
      | NotReturned => RunNotReturned
      end
  end.

Definition limits : list Z := [1; 3; 5; 7; 9; 11; 13; 15; 17; 19; 21; 23].

(** [throughputBenchmark] up to the two plots. *)
Definition throughputBenchmark (runs : list (World * list Event))
  : sweep_outcome :=
  sweep limits runs.

End Sweep.

(** The points that [plotThroughput] draws. *)
Definition throughput_points (results : list BenchmarkResult)
  : list (float * float) :=
  map (fun result => (Go.float64 (NumCoroutines result), Speedup result))
      results.

(* ------------------------------------------------------------------ *)
(** ** Facts about the integer operations *)

Lemma wrap64_range z : Go.in_int64 (Go.wrap64 z).
Proof.
  unfold Go.in_int64, Go.wrap64, Go.min_int64, Go.max_int64.
  pose proof (Z.mod_pos_bound (z + 2 ^ 63) (2 ^ 64) ltac:(lia)). lia.
Qed.

Lemma wrap64_id z : Go.in_int64 z -> Go.wrap64 z = z.
Proof.
  unfold Go.in_int64, Go.wrap64, Go.min_int64, Go.max_int64. intros H.
  rewrite Z.mod_small by lia. lia.
Qed.

Lemma quo_range a b q : Go.quo a b = Some q -> Go.in_int64 q.
Proof.
  unfold Go.quo. destruct (b =? 0); [discriminate|].
  intros [= <-]. apply wrap64_range.
Qed.

(** Dividing by a positive [int] never wraps. *)
Lemma quo_pos a b :
  Go.in_int64 a -> 0 < b -> Go.quo a b = Some (Z.quot a b).
Proof.
  intros Ha Hb. unfold Go.quo.
  destruct (Z.eqb_spec b 0); [lia|].
  f_equal. apply wrap64_id.
  unfold Go.in_int64, Go.min_int64, Go.max_int64 in *.
  destruct (Z_le_gt_dec 0 a).
  - pose proof (Z.quot_pos a b ltac:(lia) Hb).
    pose proof (Z.quot_le_upper_bound a b a Hb ltac:(nia)). lia.
  - rewrite <- (Z.opp_involutive a), Z.quot_opp_l by lia.
    pose proof (Z.quot_pos (- a) b ltac:(lia) Hb).
    pose proof (Z.quot_le_upper_bound (- a) b (- a) Hb ltac:(nia)). lia.
Qed.

(** [splits + 1] wraps only at the largest [int]. *)
Lemma add_1 s : Go.min_int64 <= s < Go.max_int64 -> Go.add s 1 = s + 1.
Proof.
  intros H. apply wrap64_id.
  unfold Go.in_int64, Go.min_int64, Go.max_int64 in *. lia.
Qed.

Lemma add_1_max : Go.add Go.max_int64 1 = Go.min_int64.
Proof. reflexivity. Qed.

(** A quotient by [- 2 ^ 63] and a quotient by [2 ^ 63] are both zero
    unless the dividend is [- 2 ^ 63] itself. *)
Lemma quot_by_2_63 a :
  Go.min_int64 < a <= Go.max_int64 ->
  Z.quot a Go.min_int64 = 0 /\ Z.quot a (Go.max_int64 + 1) = 0.
Proof.
  unfold Go.min_int64, Go.max_int64. intros H.
  destruct (Z_le_gt_dec 0 a).
  - split.
    + replace (- 2 ^ 63) with (- (2 ^ 63)) by lia.
      rewrite Z.quot_opp_r by lia. rewrite Z.quot_small by lia. reflexivity.
    + apply Z.quot_small. lia.
  - rewrite <- (Z.opp_involutive a). split.
    + replace (- 2 ^ 63) with (- (2 ^ 63)) by lia.
      rewrite Z.quot_opp_opp by lia. apply Z.quot_small. lia.
    + rewrite Z.quot_opp_l by lia. rewrite Z.quot_small by lia. reflexivity.
Qed.

(** The CPU slice as the code computes it, against [cpuTime / (s + 1)]
    over the integers. *)
Lemma cpu_slice cpuTime s :
  Go.in_int64 cpuTime -> 0 <= s <= Go.max_int64 ->
  Go.min_int64 < cpuTime \/ s < Go.max_int64 ->
  Go.quo cpuTime (Go.add s 1) = Some (Z.quot cpuTime (s + 1)).
Proof.
  intros Hc Hs Hcorner.
  destruct (Z_lt_ge_dec s Go.max_int64) as [Hlt|Hge].
  - rewrite add_1 by (unfold Go.min_int64 in *; lia).
    apply quo_pos; [assumption|lia].
  - assert (s = Go.max_int64) by lia. subst s.
    destruct Hcorner as [Hmin|]; [|lia].
    rewrite add_1_max.
    destruct (quot_by_2_63 cpuTime) as [E1 E2];
      [unfold Go.in_int64 in Hc; lia|].
    unfold Go.quo. simpl (Go.min_int64 =? 0).
    rewrite E1, E2. reflexivity.
Qed.

Lemma clamp64_pos z : 0 < z -> 0 < Go.clamp64 z.
Proof. unfold Go.clamp64, Go.min_int64, Go.max_int64. lia. Qed.

Lemma clamp64_ge z b :
  b <= Go.max_int64 -> Go.clamp64 z < b -> z < b.
Proof. unfold Go.clamp64, Go.min_int64, Go.max_int64. lia. Qed.

(* ------------------------------------------------------------------ *)
(** ** The simulated request: facts *)

Example doWork_6_55_2 :
  run_request 6 55 2 (request_name 7) (mkWorld 100 1)
  = Ok (68,
        [CpuStart 101 "Request 7" 2; CpuEnd 103 "Request 7" 2 2;
         NetStart 104 "Request 7" 27; NetEnd 132 "Request 7" 27 28;
         CpuStart 133 "Request 7" 2; CpuEnd 135 "Request 7" 2 2;
         NetStart 136 "Request 7" 27; NetEnd 164 "Request 7" 27 28;
         CpuStart 165 "Request 7" 2; CpuEnd 167 "Request 7" 2 2]).
Proof. reflexivity. Qed.

Example doWork_minus_one_split :
  run_request 6 55 (-1) (request_name 0) (mkWorld 0 1) = Panics DivideByZero.
Proof. reflexivity. Qed.

(** [0.005] as [float64]. *)
Example Seconds_5ms : Seconds 5000000 = 0x1.47ae147ae147bp-8%float.
Proof. reflexivity. Qed.

Example float64_rounds : Go.float64 (2 ^ 53 + 1) = Go.float64 (2 ^ 53).
Proof. reflexivity. Qed.

Lemma extends_trans s1 s2 s3 t1 t2 :
  extends s1 s2 t1 -> extends s2 s3 t2 -> extends s1 s3 (t1 ++ t2).
Proof.
  intros (E1 & T1 & C1) (E2 & T2 & C2). repeat split.
  - rewrite E2, E1, app_assoc. reflexivity.
  - congruence.
  - lia.
Qed.

Lemma bind_Ok {A B} (m : M A) (k : A -> M B) s a s' :
  m s = Ok (a, s') -> bind m k s = k a s'.
Proof. unfold bind. intros ->. reflexivity. Qed.

Lemma bind_Panics {A B} (m : M A) (k : A -> M B) s p :
  m s = Panics p -> bind m k s = Panics p.
Proof. unfold bind. intros ->. reflexivity. Qed.

Lemma time_Now_Ok s :
  time_Now s =
  Ok (clock (world s),
      {| world := advance (world s) (Z.pos (tick (world s))); sb := sb s |}).
Proof. reflexivity. Qed.

Lemma time_Now_extends s :
  extends s {| world := advance (world s) (Z.pos (tick (world s))); sb := sb s |} [].
Proof. repeat split; simpl; [now rewrite app_nil_r | lia]. Qed.

(** The polling loop ends: each poll reads a clock that has advanced, and
    [fuel] polls more than the time still to pass are never needed. *)
Lemma busy_loop_returns fuel : forall start workTime s,
  workTime <= Go.max_int64 ->
  workTime - (clock (world s) - start) <= Z.of_nat fuel ->
  exists e d s',
    busy_loop fuel start workTime s = Ok ((e, d), s') /\
    extends s s' [] /\ workTime <= d.
Proof.
  induction fuel as [|fuel IH]; intros start workTime s Hmax Hfuel;
    simpl busy_loop; rewrite (bind_Ok _ _ _ _ _ (time_Now_Ok s));
    destruct (Z.geb_spec (time_Sub (clock (world s)) start) workTime) as [Hge|Hlt].
  - eexists _, _, _. split; [reflexivity|]. split; [apply time_Now_extends|lia].
  - apply clamp64_ge in Hlt; [|assumption]. simpl in Hfuel. lia.
  - eexists _, _, _. split; [reflexivity|]. split; [apply time_Now_extends|lia].
  - apply clamp64_ge in Hlt; [|assumption].
    destruct (IH start workTime
                {| world := advance (world s) (Z.pos (tick (world s))); sb := sb s |}
                Hmax) as (e & d & s' & E & X & Hd).
    { simpl. lia. }
    exists e, d, s'. split; [exact E|]. split; [|exact Hd].
    apply (extends_trans _ _ _ [] [] (time_Now_extends s) X).
Qed.

(** A CPU slice returns and writes its two lines. *)
Lemma doCpuWork_returns workTime name s :
  workTime <= Go.max_int64 ->
  exists t t' took s',
    doCpuWork workTime name s = Ok (tt, s') /\
    extends s s' [CpuStart t name workTime; CpuEnd t' name workTime took] /\
    workTime <= took.
Proof.
  intros Hmax. unfold doCpuWork.
  rewrite (bind_Ok _ _ _ _ _ (time_Now_Ok s)).
  destruct (busy_loop_returns (Z.to_nat workTime) (clock (world s)) workTime
              {| world := advance (world s) (Z.pos (tick (world s))); sb := sb s |}
              Hmax) as (e & d & s1 & E & (Esb & Etick & Eclock) & Hd).
  { simpl. lia. }
  rewrite (bind_Ok _ _ _ _ _ E). simpl in *.
  eexists _, _, _, _. split; [reflexivity|]. split; [|exact Hd].
  repeat split; simpl.
  - rewrite Esb, app_nil_r, <- app_assoc. reflexivity.
  - exact Etick.
  - lia.
Qed.

(** A network slice returns and writes its two lines. *)
Lemma doNetworkWork_returns networkTime name s :
  exists t t' took s',
    doNetworkWork networkTime name s = Ok (tt, s') /\
    extends s s' [NetStart t name networkTime; NetEnd t' name networkTime took].
Proof.
  unfold doNetworkWork, bind, time_Now, WriteString, time_Sleep. simpl.
  eexists _, _, _, _. split; [reflexivity|].
  repeat split; simpl.
  - rewrite <- app_assoc. reflexivity.
  - lia.
Qed.

Lemma trace_phases_app_le n : forall t1 t2 p1 p2,
  (List.length t1 <= n)%nat ->
  trace_phases t1 = Some p1 -> trace_phases t2 = Some p2 ->
  trace_phases (t1 ++ t2) = Some (p1 ++ p2).
Proof.
  induction n as [|n IH]; intros t1 t2 p1 p2 Hlen H1 H2.
  - destruct t1; [|simpl in Hlen; lia].
    injection H1 as <-. exact H2.
  - destruct t1 as [|l1 [|l2 t1']]; simpl in H1.
    + injection H1 as <-. exact H2.
    + destruct l1; discriminate.
    + assert (Hlen' : (List.length t1' <= n)%nat) by (simpl in Hlen; lia).
      destruct l1, l2; try discriminate;
        (destruct (Z.eqb_spec workTime workTime0) as [->|] ||
         destruct (Z.eqb_spec networkTime networkTime0) as [->|]);
        try discriminate;
        destruct (trace_phases t1') as [p1'|] eqn:E1; try discriminate;
        injection H1 as <-; simpl; rewrite Z.eqb_refl;
        rewrite (IH t1' t2 p1' p2 Hlen' E1 H2); reflexivity.
Qed.

Lemma trace_phases_app t1 t2 p1 p2 :
  trace_phases t1 = Some p1 -> trace_phases t2 = Some p2 ->
  trace_phases (t1 ++ t2) = Some (p1 ++ p2).
Proof. apply (trace_phases_app_le (List.length t1)). lia. Qed.

Lemma trace_phases_cpu t name d t' took :
  trace_phases [CpuStart t name d; CpuEnd t' name d took] = Some [Cpu d].
Proof. simpl. rewrite Z.eqb_refl. reflexivity. Qed.

Lemma trace_phases_net t name d t' took :
  trace_phases [NetStart t name d; NetEnd t' name d took] = Some [Net d].
Proof. simpl. rewrite Z.eqb_refl. reflexivity. Qed.

(** The loop of [doWork]: [n] rounds of a network slice and a CPU slice. *)
Lemma rounds_return workTime networkTime splits name dc dn n :
  Go.quo workTime (Go.add splits 1) = Some dc ->
  Go.quo networkTime splits = Some dn ->
  forall i s,
  exists s' t,
    for_loop n i
      (fun _ =>
         dn <- div networkTime splits ;;
         doNetworkWork dn name ;;
         dc <- div workTime (Go.add splits 1) ;;
         doCpuWork dc name) s = Ok (tt, s') /\
    sb s' = sb s ++ t /\ tick (world s') = tick (world s) /\
    clock (world s) <= clock (world s') /\
    trace_phases t = Some (rounds n dc dn).
Proof.
  intros Hc Hn. induction n as [|n IH]; intros i s.
  - exists s, []. simpl. rewrite app_nil_r. repeat split; lia.
  - simpl for_loop. unfold div at 1 2. rewrite Hc, Hn.
    destruct (doNetworkWork_returns dn name s) as (t1 & t1' & k1 & s1 & E1 & X1).
    destruct (doCpuWork_returns dc name s1) as (t2 & t2' & k2 & s2 & E2 & X2 & _).
    { apply quo_range in Hc. unfold Go.in_int64 in Hc. lia. }
    destruct (IH (i + 1) s2) as (s3 & t3 & E3 & Esb & Etick & Eclock & Ephases).
    pose proof (extends_trans _ _ _ _ _ X1 X2) as (Esb12 & Etick12 & Eclock12).
    exists s3, (([NetStart t1 name dn; NetEnd t1' name dn k1] ++
                 [CpuStart t2 name dc; CpuEnd t2' name dc k2]) ++ t3).
    split.
    { unfold bind at 1. unfold bind at 1. unfold ret at 1.
      unfold bind at 1. rewrite E1.
      unfold bind at 1. unfold ret at 1.
      unfold bind at 1. rewrite E2. exact E3. }
    split; [rewrite Esb, Esb12, <- !app_assoc; reflexivity|].
    split; [congruence|]. split; [lia|].
    apply (trace_phases_app _ t3 [Net dn; Cpu dc] (rounds n dc dn)); [|exact Ephases].
    apply (trace_phases_app _ _ [Net dn] [Cpu dc]);
      [apply trace_phases_net | apply trace_phases_cpu].
Qed.

(** A request returns whenever its first division does, and its trace is
    the first CPU slice followed by the rounds of the loop. *)
Lemma doWork_returns workTime networkTime splits name dc s :
  Go.quo workTime (Go.add splits 1) = Some dc ->
  exists elapsed s' t t' took rest,
    doWork workTime networkTime splits name s = Ok (elapsed, s') /\
    sb s' = sb s ++ [CpuStart t name dc; CpuEnd t' name dc took] ++ rest /\
    trace_phases rest =
      Some (rounds (Z.to_nat splits) dc (Go.wrap64 (Z.quot networkTime splits))) /\
    (splits <= 0 -> rest = []) /\
    0 < elapsed.
Proof.
  intros Hc. unfold doWork.
  rewrite (bind_Ok _ _ _ _ _ (time_Now_Ok s)).
  set (s0 := {| world := advance (world s) (Z.pos (tick (world s))); sb := sb s |}).
  unfold div at 1. rewrite Hc. unfold bind at 1, ret at 1.
  destruct (doCpuWork_returns dc name s0) as (t & t' & took & s1 & E1 & X1 & _).
  { apply quo_range in Hc. unfold Go.in_int64 in Hc. lia. }
  rewrite (bind_Ok _ _ _ _ _ E1).
  assert (exists s2 rest,
    for_loop (Z.to_nat splits) 0
      (fun _ =>
         dn <- div networkTime splits ;;
         doNetworkWork dn name ;;
         dc <- div workTime (Go.add splits 1) ;;
         doCpuWork dc name) s1 = Ok (tt, s2) /\
    sb s2 = sb s1 ++ rest /\ clock (world s1) <= clock (world s2) /\
    trace_phases rest =
      Some (rounds (Z.to_nat splits) dc (Go.wrap64 (Z.quot networkTime splits))) /\
    (splits <= 0 -> rest = [])) as (s2 & rest & E2 & Esb & Eclock & Eph & Enil).
  { destruct (Z_le_gt_dec splits 0) as [Hle|Hgt].
    - exists s1, []. replace (Z.to_nat splits) with 0%nat by lia.
      simpl. rewrite app_nil_r. repeat split; lia.
    - assert (Hn : Go.quo networkTime splits
                   = Some (Go.wrap64 (Z.quot networkTime splits))).
      { unfold Go.quo. destruct (Z.eqb_spec splits 0); [lia|reflexivity]. }
      destruct (rounds_return workTime networkTime splits name dc _
                  (Z.to_nat splits) Hc Hn 0 s1)
        as (s2 & rest & E2 & Esb & _ & Eclock & Eph).
      exists s2, rest. repeat split; try assumption. lia. }
  rewrite (bind_Ok _ _ _ _ _ E2).
  destruct X1 as (Esb1 & _ & Eclock1).
  unfold time_Since. rewrite (bind_Ok _ _ _ _ _ (time_Now_Ok s2)). unfold ret.
  eexists _, _, t, t', took, rest. split; [reflexivity|]. simpl.
  split; [rewrite Esb, Esb1; unfold s0; simpl; rewrite <- app_assoc; reflexivity|].
  split; [exact Eph|]. split; [exact Enil|].
  apply clamp64_pos. unfold s0 in Eclock1. simpl in Eclock1. lia.
Qed.

(** A request whose first division is by zero panics. *)
Lemma doWork_divide_by_zero workTime networkTime splits name s :
  Go.add splits 1 = 0 ->
  doWork workTime networkTime splits name s = Panics DivideByZero.
Proof.
  intros H. unfold doWork.
  rewrite (bind_Ok _ _ _ _ _ (time_Now_Ok s)).
  unfold div at 1, Go.quo. rewrite H. reflexivity.
Qed.

(** A request returns or panics: the polling loops never run out of fuel. *)
Lemma doWork_total workTime networkTime splits name s :
  (exists elapsed s',
     doWork workTime networkTime splits name s = Ok (elapsed, s') /\
     tick (world s') = tick (world s) /\ 0 < elapsed) \/
  doWork workTime networkTime splits name s = Panics DivideByZero.
Proof.
  destruct (Go.quo workTime (Go.add splits 1)) as [dc|] eqn:Q.
  - left.
    assert (Etick : forall s', extends s s' [] -> tick (world s') = tick (world s))
      by (intros s' (_ & T & _); exact T).
    unfold doWork.
    rewrite (bind_Ok _ _ _ _ _ (time_Now_Ok s)).
    set (s0 := {| world := advance (world s) (Z.pos (tick (world s))); sb := sb s |}).
    unfold div at 1. rewrite Q. unfold bind at 1, ret at 1.
    destruct (doCpuWork_returns dc name s0) as (t & t' & took & s1 & E1 & X1 & _).
    { apply quo_range in Q. unfold Go.in_int64 in Q. lia. }
    rewrite (bind_Ok _ _ _ _ _ E1).
    assert (exists s2,
      for_loop (Z.to_nat splits) 0
        (fun _ =>
           dn <- div networkTime splits ;;
           doNetworkWork dn name ;;
           dc <- div workTime (Go.add splits 1) ;;
           doCpuWork dc name) s1 = Ok (tt, s2) /\
      tick (world s2) = tick (world s1) /\ clock (world s1) <= clock (world s2))
      as (s2 & E2 & Etick2 & Eclock2).
    { destruct (Z_le_gt_dec splits 0) as [Hle|Hgt].
      - exists s1. replace (Z.to_nat splits) with 0%nat by lia.
        simpl. repeat split; lia.
      - assert (Hn : Go.quo networkTime splits
                     = Some (Go.wrap64 (Z.quot networkTime splits))).
        { unfold Go.quo. destruct (Z.eqb_spec splits 0); [lia|reflexivity]. }
        destruct (rounds_return workTime networkTime splits name dc _
                    (Z.to_nat splits) Q Hn 0 s1)
          as (s2 & rest & E2 & _ & Etick2 & Eclock2 & _).
        exists s2. repeat split; assumption. }
    rewrite (bind_Ok _ _ _ _ _ E2).
    destruct X1 as (_ & Etick1 & Eclock1).
    unfold time_Since. rewrite (bind_Ok _ _ _ _ _ (time_Now_Ok s2)). unfold ret.
    eexists _, _. split; [reflexivity|]. simpl.
    split; [rewrite Etick2, Etick1; reflexivity|].
    apply clamp64_pos. unfold s0 in Eclock1. simpl in Eclock1. lia.
  - right. apply doWork_divide_by_zero.
    unfold Go.quo in Q. destruct (Z.eqb_spec (Go.add splits 1) 0); [assumption|discriminate].
Qed.

(** So does the baseline. *)
Lemma baseline_total workTime networkTime splits baselineIterations s :
  baseline workTime networkTime splits baselineIterations s <> OutOfFuel.
Proof.
  unfold baseline.
  rewrite (bind_Ok _ _ _ _ _ (time_Now_Ok s)).
  set (start := clock (world s)). clearbody start.
  generalize ({| world := advance (world s) (Z.pos (tick (world s))); sb := sb s |}).
  generalize 0 at 1.
  induction (Z.to_nat baselineIterations) as [|n IH]; intros i s0.
  - simpl. unfold bind, ret, time_Since. simpl. discriminate.
  - simpl for_loop.
    destruct (doWork_total workTime networkTime splits (request_name i) s0)
      as [(elapsed & s1 & E & _ & _)|E].
    + unfold bind at 1. unfold bind at 1. unfold bind at 1. rewrite E.
      unfold ret at 1. apply IH.
    + unfold bind at 1. unfold bind at 1. unfold bind at 1. rewrite E.
      discriminate.
Qed.

(* ------------------------------------------------------------------ *)
(** ** The shape of a request *)




Lemma rounds_cpu s dc dn : cpu_phases (rounds s dc dn) = repeat (Cpu dc) s.
Proof. induction s as [|s IH]; simpl; [reflexivity | f_equal; exact IH]. Qed.

Lemma rounds_net s dc dn : net_phases (rounds s dc dn) = repeat (Net dn) s.
Proof. induction s as [|s IH]; simpl; [reflexivity | f_equal; exact IH]. Qed.

Lemma alternation_cpu s dc dn :
  cpu_phases (alternation s dc dn) = repeat (Cpu dc) (S s).
Proof. unfold alternation. simpl. f_equal. apply rounds_cpu. Qed.

Lemma alternation_net s dc dn :
  net_phases (alternation s dc dn) = repeat (Net dn) s.
Proof. unfold alternation. simpl. apply rounds_net. Qed.

Lemma commanded_repeat p n : commanded (repeat p n) = Z.of_nat n * duration_of p.
Proof. induction n as [|n IH]; simpl commanded; [lia | simpl in IH; rewrite IH; lia]. Qed.

Lemma Forall_repeat {A} (P : A -> Prop) a n : P a -> Forall P (repeat a n).
Proof. intros H. induction n; simpl; constructor; assumption. Qed.

(** A product of a positive divisor and its quotient falls short of the
    dividend exactly when the division leaves a remainder. *)
Lemma truncation_loss a b :
  0 <= a -> 0 < b ->
  b * (a / b) <= a /\ (b * (a / b) < a <-> ~ (b | a)).
Proof.
  intros Ha Hb.
  pose proof (Z.div_mod a b ltac:(lia)) as E.
  pose proof (Z.mod_pos_bound a b Hb) as Hm.
  split; [lia|]. rewrite <- Z.mod_divide by lia. lia.
Qed.

Ltac int64 := unfold Go.in_int64, Go.min_int64, Go.max_int64 in *; lia.



(** Claim C9.  For [splits = 0] a request returns, and what it appends to
    its builder is one CPU phase commanded the whole [cpuTime]: its opening
    and its closing line, and no line of a network phase.  No division
    panics: [networkTime / splits], which would, is not evaluated. *)
Theorem doWork_no_splits cpuTime networkTime name st :
  Go.in_int64 cpuTime ->
  exists elapsed st' t t' took,
    doWork cpuTime networkTime 0 name st = Ok (elapsed, st') /\
    sb st' = sb st ++ [CpuStart t name cpuTime; CpuEnd t' name cpuTime took] /\
    trace_phases [CpuStart t name cpuTime; CpuEnd t' name cpuTime took]
      = Some [Cpu cpuTime] /\
    doWork cpuTime networkTime 0 name st <> Panics DivideByZero /\
    div networkTime 0 st = Panics DivideByZero.
Proof.
  intros Hc.
  assert (Edc : Go.quo cpuTime (Go.add 0 1) = Some cpuTime).
  { change (Go.add 0 1) with 1. rewrite quo_pos by (assumption || lia).
    rewrite Z.quot_1_r. reflexivity. }
  destruct (doWork_returns cpuTime networkTime 0 name _ st Edc)
    as (elapsed & st' & t & t' & took & rest & E & Esb & _ & Enil & _).
  rewrite (Enil ltac:(lia)) in Esb.
  exists elapsed, st', t, t', took.
  split; [exact E|]. split; [exact Esb|].
  split; [apply trace_phases_cpu|].
  split; [rewrite E; discriminate | reflexivity].
Qed.

Lemma doWork_no_splits_witness :
  exists elapsed st' t t' took,
    doWork 5000 55000 0 (request_name 3) (mkSt (mkWorld 10 7) []) = Ok (elapsed, st') /\
    sb st' = [] ++ [CpuStart t (request_name 3) 5000; CpuEnd t' (request_name 3) 5000 took] /\
    trace_phases [CpuStart t (request_name 3) 5000; CpuEnd t' (request_name 3) 5000 took]
      = Some [Cpu 5000] /\
    doWork 5000 55000 0 (request_name 3) (mkSt (mkWorld 10 7) []) <> Panics DivideByZero /\
    div 55000 0 (mkSt (mkWorld 10 7) []) = Panics DivideByZero.
Proof.
  apply (doWork_no_splits 5000 55000 (request_name 3) (mkSt (mkWorld 10 7) [])).
  unfold Go.in_int64, Go.min_int64, Go.max_int64; lia.
Defined.

(** Claim C10.  For durations that are not negative and [splits = s >= 0],
    every CPU slice of a request is commanded [cpuTime / (s + 1)] rounded
    down and every network slice [networkTime / s] rounded down.  The
    [s + 1] CPU slices are commanded [(s + 1) * (cpuTime / (s + 1))] in all,
    which is at most [cpuTime] and less exactly when [s + 1] does not divide
    [cpuTime]; the [s] network slices are commanded [s * (networkTime / s)],
    at most [networkTime] and less exactly when [s] does not divide it. *)
Theorem doWork_slices_truncated cpuTime networkTime s name st :
  0 <= cpuTime <= Go.max_int64 ->
  0 <= networkTime <= Go.max_int64 ->
  0 <= s <= Go.max_int64 ->
  exists elapsed st' t ps,
    doWork cpuTime networkTime s name st = Ok (elapsed, st') /\
    sb st' = sb st ++ t /\
    trace_phases t = Some ps /\
    Forall (fun p => duration_of p = cpuTime / (s + 1)) (cpu_phases ps) /\
    Forall (fun p => duration_of p = networkTime / s) (net_phases ps) /\
    Z.of_nat (List.length (cpu_phases ps)) = s + 1 /\
    Z.of_nat (List.length (net_phases ps)) = s /\
    commanded (cpu_phases ps) = (s + 1) * (cpuTime / (s + 1)) /\
    commanded (net_phases ps) = s * (networkTime / s) /\
    commanded (cpu_phases ps) <= cpuTime /\
    (commanded (cpu_phases ps) < cpuTime <-> ~ (s + 1 | cpuTime)) /\
    commanded (net_phases ps) <= networkTime /\
    (commanded (net_phases ps) < networkTime <-> ~ (s | networkTime)).
Proof.
  intros Hc Hn Hs.
  assert (Edc : Go.quo cpuTime (Go.add s 1) = Some (cpuTime / (s + 1))).
  { rewrite cpu_slice by int64. rewrite Z.quot_div_nonneg by lia. reflexivity. }
  destruct (doWork_returns cpuTime networkTime s name _ st Edc)
    as (elapsed & st' & t & t' & took & rest & E & Esb & Eph & _ & _).
  assert (Edn : rounds (Z.to_nat s) (cpuTime / (s + 1))
                  (Go.wrap64 (Z.quot networkTime s))
                = rounds (Z.to_nat s) (cpuTime / (s + 1)) (networkTime / s)).
  { destruct (Z.eq_dec s 0) as [->|Hne]; [reflexivity|].
    pose proof (quo_pos networkTime s ltac:(int64) ltac:(lia)) as Q.
    unfold Go.quo in Q. destruct (s =? 0); [discriminate|].
    injection Q as ->. rewrite Z.quot_div_nonneg by lia. reflexivity. }
  rewrite Edn in Eph.
  pose proof (trace_phases_app _ rest _ _
                (trace_phases_cpu t name (cpuTime / (s + 1)) t' took) Eph)
    as Ephases.
  set (dc := cpuTime / (s + 1)) in *. set (dn := networkTime / s) in *.
  change ([Cpu dc] ++ rounds (Z.to_nat s) dc dn)
    with (alternation (Z.to_nat s) dc dn) in Ephases.
  eexists elapsed, st', _, _. split; [exact E|]. split; [exact Esb|].
  split; [exact Ephases|].
  rewrite alternation_cpu, alternation_net.
  rewrite !commanded_repeat, !repeat_length. simpl duration_of.
  replace (Z.of_nat (S (Z.to_nat s))) with (s + 1) by lia.
  replace (Z.of_nat (Z.to_nat s)) with s by lia.
  split; [apply Forall_repeat; reflexivity|].
  split; [apply Forall_repeat; reflexivity|].
  split; [reflexivity|]. split; [reflexivity|].
  split; [reflexivity|]. split; [reflexivity|].
  destruct (truncation_loss cpuTime (s + 1) ltac:(lia) ltac:(lia)) as [Hle Hlt].
  fold dc in Hle, Hlt. split; [exact Hle|]. split; [exact Hlt|].
  destruct (Z.eq_dec s 0) as [->|Hne].
  - split; [lia|]. split.
    + intros Hlt' [k Hk]. lia.
    + intros Hnd. destruct (Z.eq_dec networkTime 0) as [->|]; [|lia].
      exfalso. apply Hnd. exists 0. reflexivity.
  - destruct (truncation_loss networkTime s ltac:(lia) ltac:(lia)) as [Hle' Hlt'].
    fold dn in Hle', Hlt'. split; assumption.
Qed.

Lemma doWork_slices_truncated_witness :
  exists elapsed st' t ps,
    doWork 5000000 55000000 5 (request_name 0) (mkSt (mkWorld 0 1000) [])
      = Ok (elapsed, st') /\
    sb st' = [] ++ t /\
    trace_phases t = Some ps /\
    Forall (fun p => duration_of p = 5000000 / (5 + 1)) (cpu_phases ps) /\
    Forall (fun p => duration_of p = 55000000 / 5) (net_phases ps) /\
    Z.of_nat (List.length (cpu_phases ps)) = 5 + 1 /\
    Z.of_nat (List.length (net_phases ps)) = 5 /\
    commanded (cpu_phases ps) = (5 + 1) * (5000000 / (5 + 1)) /\
    commanded (net_phases ps) = 5 * (55000000 / 5) /\
    commanded (cpu_phases ps) <= 5000000 /\
    (commanded (cpu_phases ps) < 5000000 <-> ~ (5 + 1 | 5000000)) /\
    commanded (net_phases ps) <= 55000000 /\
    (commanded (net_phases ps) < 55000000 <-> ~ (5 | 55000000)).
Proof.
  apply (doWork_slices_truncated 5000000 55000000 5 (request_name 0)
           (mkSt (mkWorld 0 1000) []));
    unfold Go.max_int64; lia.
Defined.

(* ------------------------------------------------------------------ *)
(** ** The concurrent phase: the semaphore *)

Section Semaphore.

Variables workTime networkTime numGreenThreads splits iterations : Z.

Lemma drop_length g l :
  mem g l = true -> (List.length (drop g l) < List.length l)%nat.
Proof.
  unfold mem, drop. induction l as [|h l IH]; simpl; [discriminate|].
  destruct (Z.eqb_spec g h) as [->|Hne]; simpl.
  - intros _. pose proof (filter_length_le (fun h0 => negb (h =? h0)) l). lia.
  - intros H. specialize (IH H). lia.
Qed.

Lemma step_sem_ok r e r' :
  sem_ok numGreenThreads r ->
  step workTime networkTime numGreenThreads splits iterations r e = Next r' ->
  sem_ok numGreenThreads r' /\
  cur r' = cur r + outstanding [e].
Proof.
  unfold sem_ok, in_flight, step.
  intros [Hcur Hfl] Hstep. destruct e as [|g w|g| |d]; simpl outstanding.
  - destruct (Z.ltb_spec (x r) iterations); simpl in Hstep; [|discriminate].
    destruct (Z.leb_spec 1 (numGreenThreads - cur r)); [|discriminate].
    injection Hstep as <-. simpl. rewrite length_app. simpl. lia.
  - destruct (mem g (working r)) eqn:Hmem; [|discriminate].
    destruct (run_request _ _ _ _ _) as [[t out]| |]; try discriminate.
    destruct (closed r); [discriminate|].
    destruct (Z.of_nat (List.length (c r)) <? iterations); [|discriminate].
    injection Hstep as <-. simpl. rewrite length_app. simpl.
    pose proof (drop_length g _ Hmem). lia.
  - destruct (mem g (sent r)) eqn:Hmem; [|discriminate].
    destruct (Z.ltb_spec (cur r - 1) 0); [discriminate|].
    injection Hstep as <-. simpl.
    pose proof (drop_length g _ Hmem). lia.
  - destruct (iterations <=? x r); [|discriminate].
    destruct (c r) as [|res rest]; [discriminate|].
    destruct (_ && closed r); [discriminate|].
    injection Hstep as <-. simpl. lia.
  - injection Hstep as <-. simpl. lia.
Qed.

Lemma outstanding_app evs1 evs2 :
  outstanding (evs1 ++ evs2) = outstanding evs1 + outstanding evs2.
Proof.
  induction evs1 as [|e evs1 IH]; simpl; [reflexivity|].
  destruct e; rewrite IH; lia.
Qed.

Lemma exec_sem_ok evs : forall r r',
  sem_ok numGreenThreads r ->
  exec workTime networkTime numGreenThreads splits iterations r evs = Some r' ->
  sem_ok numGreenThreads r' /\ cur r' = cur r + outstanding evs.
Proof.
  induction evs as [|e evs IH]; intros r r' Hok Hexec; simpl in Hexec.
  - injection Hexec as <-. simpl. split; [assumption|lia].
  - destruct (step workTime networkTime numGreenThreads splits iterations r e)
      as [r1| |] eqn:Hstep; try discriminate.
    destruct (step_sem_ok r e r1 Hok Hstep) as [Hok1 Hcur1].
    destruct (IH r1 r' Hok1 Hexec) as [Hok' Hcur'].
    split; [assumption|].
    change (e :: evs) with ([e] ++ evs). rewrite outstanding_app. lia.
Qed.

(** The steps of a schedule that can be taken to its end can be taken up
    to any point of it. *)
Lemma exec_prefix pre : forall post r r',
  exec workTime networkTime numGreenThreads splits iterations r (pre ++ post)
    = Some r' ->
  exists r1,
    exec workTime networkTime numGreenThreads splits iterations r pre = Some r1.
Proof.
  induction pre as [|e pre IH]; intros post r r' H; simpl in *.
  - eexists. reflexivity.
  - destruct (step workTime networkTime numGreenThreads splits iterations r e); try discriminate.
    apply (IH post _ r' H).
Qed.

End Semaphore.

(** Claim C1.  Under a concurrency limit [L >= 1], take any sequence of
    steps of the concurrent phase that the program can perform.  At every
    point of it, the permits outstanding (the acquires not yet followed by
    their release) are the semaphore's count, are at most [L], and cover
    every goroutine that is in flight. *)
Theorem permits_never_exceed_limit
    workTime networkTime L splits iterations w evs r :
  1 <= L ->
  exec workTime networkTime L splits iterations (initial w) evs = Some r ->
  forall pre post, evs = pre ++ post ->
  exists r1,
    exec workTime networkTime L splits iterations (initial w) pre = Some r1 /\
    outstanding pre = cur r1 /\
    0 <= outstanding pre <= L /\
    in_flight r1 <= outstanding pre.
Proof.
  intros HL Hexec pre post ->.
  destruct (exec_prefix _ _ _ _ _ pre post _ _ Hexec) as [r1 Hpre].
  assert (H0 : sem_ok L (initial w)).
  { unfold sem_ok, in_flight. simpl. lia. }
  destruct (exec_sem_ok _ _ _ _ _ pre _ _ H0 Hpre) as [[Hcur Hfl] Hout].
  simpl in Hout. exists r1. repeat split; try assumption; lia.
Qed.

Lemma permits_never_exceed_limit_witness :
  exists r1,
    exec 5 55 2 1 3 (initial (mkWorld 0 1)) [Launch; Launch] = Some r1 /\
    outstanding [Launch; Launch] = cur r1 /\
    0 <= outstanding [Launch; Launch] <= 2 /\
    in_flight r1 <= outstanding [Launch; Launch].
Proof.
  refine (permits_never_exceed_limit 5 55 2 1 3 (mkWorld 0 1)
            [Launch; Launch; Work 1 (mkWorld 0 1); Release 1; Launch]
            _ _ _ [Launch; Launch] [Work 1 (mkWorld 0 1); Release 1; Launch]
            eq_refl).
  - lia.
  - vm_compute. reflexivity.
Defined.

(* ------------------------------------------------------------------ *)
(** ** The concurrent phase: collecting the results *)

(** A request that returns has taken some time: the clock has been read
    since it started. *)
Lemma run_request_elapsed workTime networkTime splits name w t out :
  run_request workTime networkTime splits name w = Ok (t, out) -> 0 < t.
Proof.
  unfold run_request. intros H.
  destruct (Go.quo workTime (Go.add splits 1)) as [dc|] eqn:Q.
  - destruct (doWork_returns workTime networkTime splits name dc
                {| world := w; sb := [] |} Q)
      as (elapsed & s' & _ & _ & _ & _ & E & _ & _ & _ & Hpos).
    rewrite E in H. injection H as <- _. exact Hpos.
  - unfold Go.quo in Q. destruct (Z.eqb_spec (Go.add splits 1) 0) as [E0|]; [|discriminate].
    rewrite (doWork_divide_by_zero _ _ _ _ _ E0) in H. discriminate.
Qed.




Lemma track_snoc rs res : track (rs ++ [res]) = longer (track rs) res.
Proof. unfold track. rewrite fold_left_app. reflexivity. Qed.

Section Collection.

Variables workTime networkTime numGreenThreads splits iterations : Z.

Lemma step_collect_ok r e r' :
  collect_ok iterations r ->
  step workTime networkTime numGreenThreads splits iterations r e = Next r' ->
  collect_ok iterations r'.
Proof.
  unfold collect_ok, step.
  intros (Hc & Hr & Hl & Hlen & Hclosed) Hstep.
  destruct e as [|g w|g| |d].
  - destruct (_ && _); [|discriminate]. injection Hstep as <-. simpl. auto.
  - destruct (mem g (working r)); [|discriminate].
    destruct (run_request _ _ _ _ _) as [[t out]| |] eqn:Hreq; try discriminate.
    destruct (closed r); [discriminate|].
    destruct (_ <? iterations); [|discriminate].
    injection Hstep as <-. simpl.
    apply run_request_elapsed in Hreq.
    repeat split; auto.
    apply Forall_app. split; [assumption|]. constructor; [exact Hreq|constructor].
  - destruct (mem g (sent r)); [|discriminate].
    destruct (_ <? 0); [discriminate|]. injection Hstep as <-. simpl. auto.
  - destruct (iterations <=? x r); [|discriminate].
    destruct (c r) as [|res rest]; [discriminate|].
    destruct (_ && closed r) eqn:Hfull; [discriminate|].
    injection Hstep as <-. simpl.
    inversion Hc; subst.
    split; [assumption|].
    split; [apply Forall_app; split; [assumption|constructor; [assumption|constructor]]|].
    split; [rewrite track_snoc, Hl; reflexivity|].
    split; [rewrite !length_app; simpl; lia|].
    rewrite !length_app. simpl. intros Hcl.
    apply orb_true_iff in Hcl. destruct Hcl as [Hcl|Hcl].
    + specialize (Hclosed Hcl). lia.
    + apply Z.eqb_eq in Hcl. lia.
  - injection Hstep as <-. simpl. auto.
Qed.

Lemma run_events_collect_ok evs : forall r r',
  collect_ok iterations r ->
  run_events workTime networkTime numGreenThreads splits iterations r evs
    = Returned r' ->
  collect_ok iterations r' /\ done iterations r' = true.
Proof.
  induction evs as [|e evs IH]; intros r r' Hok Hrun; simpl in Hrun;
    destruct (done iterations r) eqn:Hdone.
  - injection Hrun as <-. auto.
  - discriminate.
  - injection Hrun as <-. auto.
  - destruct (step _ _ _ _ _ r e) as [r1| |] eqn:Hstep; try discriminate.
    apply (IH r1 r' (step_collect_ok _ _ _ Hok Hstep) Hrun).
Qed.

Lemma step_count_ok r e r' :
  iterations <= Go.max_int64 ->
  count_ok iterations r ->
  step workTime networkTime numGreenThreads splits iterations r e = Next r' ->
  count_ok iterations r'.
Proof.
  unfold count_ok, step. intros Hmax [Hcount Hx] Hstep.
  destruct e as [|g w|g| |d].
  - destruct (Z.ltb_spec (x r) iterations); simpl in Hstep; [|discriminate].
    destruct (1 <=? numGreenThreads - cur r); [|discriminate].
    injection Hstep as <-. simpl. rewrite length_app. simpl.
    rewrite add_1 by (unfold Go.min_int64; lia). lia.
  - destruct (mem g (working r)) eqn:Hmem; [|discriminate].
    destruct (run_request _ _ _ _ _) as [[t out]| |]; try discriminate.
    destruct (closed r); [discriminate|].
    destruct (_ <? iterations); [|discriminate].
    injection Hstep as <-. simpl. rewrite length_app. simpl.
    pose proof (drop_length g _ Hmem). lia.
  - destruct (mem g (sent r)); [|discriminate].
    destruct (_ <? 0); [discriminate|]. injection Hstep as <-. simpl. lia.
  - destruct (iterations <=? x r); [|discriminate].
    destruct (c r) as [|res rest]; [discriminate|].
    destruct (_ && closed r); [discriminate|].
    injection Hstep as <-. simpl in *. rewrite length_app. simpl. lia.
  - injection Hstep as <-. simpl. lia.
Qed.

Lemma run_events_count_ok evs : forall r r',
  iterations <= Go.max_int64 ->
  count_ok iterations r ->
  run_events workTime networkTime numGreenThreads splits iterations r evs
    = Returned r' ->
  count_ok iterations r'.
Proof.
  induction evs as [|e evs IH]; intros r r' Hmax Hok Hrun; simpl in Hrun;
    destruct (done iterations r).
  - injection Hrun as <-. exact Hok.
  - discriminate.
  - injection Hrun as <-. exact Hok.
  - destruct (step _ _ _ _ _ r e) as [r1| |] eqn:Hstep; try discriminate.
    apply (IH r1 r' Hmax (step_count_ok _ _ _ Hmax Hok Hstep) Hrun).
Qed.

(** A run of the concurrent phase never returns from a state of [I], when
    no state of [I] ends the receiving loop and every step keeps [I]. *)
Lemma run_events_stuck (I : Run -> Prop) :
  (forall r, I r -> done iterations r = false) ->
  (forall r e r', I r ->
     step workTime networkTime numGreenThreads splits iterations r e = Next r' ->
     I r') ->
  forall evs r r', I r ->
    run_events workTime networkTime numGreenThreads splits iterations r evs
      <> Returned r'.
Proof.
  intros Hdone Hstep. induction evs as [|e evs IH]; intros r r' HI; simpl;
    rewrite (Hdone r HI); [discriminate|].
  destruct (step _ _ _ _ _ r e) as [r1| |] eqn:E; try discriminate.
  apply (IH r1 r' (Hstep r e r1 HI E)).
Qed.

End Collection.




(** A run that returns has received exactly [iterations] results, one
    latency for each. *)
Lemma collected_all
    workTime networkTime numGreenThreads splits baselineIterations iterations
    w evs m :
  iterations <= Go.max_int64 ->
  runBenchmark_measured workTime networkTime numGreenThreads splits
    baselineIterations iterations w evs = Returned m ->
  Z.of_nat (List.length (collected m)) = iterations /\
  List.length (ResponseTimesMs (benchmarkResult m)) = List.length (collected m).
Proof.
  intros Hmax. unfold runBenchmark_measured.
  destruct (baseline _ _ _ _ _) as [[bd s1]| |]; try discriminate.
  destruct (Z.ltb_spec iterations 0); [discriminate|].
  destruct (run_events _ _ _ _ _ _ evs) as [r| |] eqn:Hrun; try discriminate.
  intros [= <-]. simpl.
  set (r0 := initial (advance (world s1) (Z.pos (tick (world s1))))) in *.
  assert (H0 : collect_ok iterations r0).
  { unfold collect_ok. simpl. repeat split; try constructor. discriminate. }
  assert (H1 : count_ok iterations r0) by (unfold count_ok; simpl; lia).
  destruct (run_events_collect_ok _ _ _ _ _ evs _ _ H0 Hrun)
    as [(_ & _ & _ & Hlen & Hclosed) Hdone].
  destruct (run_events_count_ok _ _ _ _ _ evs _ _ Hmax H1 Hrun) as [Hcount Hx].
  unfold done in Hdone. apply andb_true_iff in Hdone as [Hdone _].
  apply andb_true_iff in Hdone as [_ Hcl]. specialize (Hclosed Hcl).
  split; [lia|exact Hlen].
Qed.

(* ------------------------------------------------------------------ *)
(** ** Whole runs *)

(** Requests of 5ms CPU and 55ms network in five splits: a baseline of one,
    then [seven_requests] under a limit of one.  Main measures 600000012ns
    for the concurrent phase. *)
Lemma seven_requests_returns :
  exists m,
    runBenchmark_measured 5000000 55000000 1 5 1 7 (mkWorld 0 1000)
      seven_requests = Returned m /\
    totalDuration m = 600000012.
Proof. vm_compute. eexists. split; reflexivity. Qed.



(** Claim C7, as amended.  For every run of the benchmark that returns,
    the throughput is [iterations] over the seconds of the concurrent
    phase, the speedup is the throughput over the baseline throughput
    ([baselineIterations] over the seconds of the baseline), and the CPU
    utilization is the throughput times 100, divided by [1 / cpuTime] in
    seconds: all in [float64], the product by 100 taken before the
    division. *)
Theorem metrics_of_a_run
    workTime networkTime numGreenThreads splits baselineIterations iterations
    w evs m :
  runBenchmark_measured workTime networkTime numGreenThreads splits
    baselineIterations iterations w evs = Returned m ->
  ThroughputRps (benchmarkResult m)
    = (Go.float64 iterations / Seconds (totalDuration m))%float /\
  Speedup (benchmarkResult m)
    = (ThroughputRps (benchmarkResult m)
       / (Go.float64 baselineIterations / Seconds (baselineDuration m)))%float /\
  CpuUtilization (benchmarkResult m)
    = (ThroughputRps (benchmarkResult m) * 100 / (1 / Seconds workTime))%float.
Proof.
  unfold runBenchmark_measured.
  destruct (baseline _ _ _ _ _) as [[bd s1]| |]; try discriminate.
  destruct (iterations <? 0); [discriminate|].
  destruct (run_events _ _ _ _ _ _ evs) as [r| |]; try discriminate.
  intros [= <-]. simpl. repeat split.
Qed.

Lemma metrics_of_a_run_witness :
  exists m,
    runBenchmark_measured 5000000 55000000 1 5 1 7 (mkWorld 0 1000)
      seven_requests = Returned m /\
    ThroughputRps (benchmarkResult m)
      = (Go.float64 7 / Seconds (totalDuration m))%float /\
    Speedup (benchmarkResult m)
      = (ThroughputRps (benchmarkResult m)
         / (Go.float64 1 / Seconds (baselineDuration m)))%float /\
    CpuUtilization (benchmarkResult m)
      = (ThroughputRps (benchmarkResult m) * 100 / (1 / Seconds 5000000))%float.
Proof.
  destruct seven_requests_returns as (m & E & _).
  exists m. split; [exact E|].
  exact (metrics_of_a_run 5000000 55000000 1 5 1 7 (mkWorld 0 1000)
           seven_requests m E).
Defined.

(** Claim C7 as stated fails: in this run the CPU utilization is not the
    throughput divided by the theoretical maximum, times 100; the two
    differ in the last place of the [float64]. *)
Lemma cpu_utilization_order_matters :
  exists m,
    runBenchmark_measured 5000000 55000000 1 5 1 7 (mkWorld 0 1000)
      seven_requests = Returned m /\
    CpuUtilization (benchmarkResult m)
      <> (ThroughputRps (benchmarkResult m) / (1 / Seconds 5000000) * 100)%float.
Proof.
  vm_compute. eexists. split; [reflexivity|].
  intros H. apply (f_equal Prim2SF) in H. vm_compute in H. discriminate.
Qed.

(* ------------------------------------------------------------------ *)
(** ** Configurations that are never checked *)

Section NeverReturns.

Variables workTime networkTime numGreenThreads splits iterations : Z.

Lemma idle_not_done r : idle r -> done iterations r = false.
Proof.
  intros (_ & _ & _ & _ & _ & Hcl). unfold done. rewrite Hcl.
  apply andb_false_iff. left. apply andb_false_r.
Qed.

Lemma starved_not_done r : starved r -> done iterations r = false.
Proof.
  intros (_ & _ & Hcl). unfold done. rewrite Hcl.
  apply andb_false_iff. left. apply andb_false_r.
Qed.

(** Without an iteration to launch, or without a permit to give, main
    never launches a goroutine. *)
Lemma step_idle r e r' :
  iterations <= 0 \/ numGreenThreads <= 0 ->
  idle r ->
  step workTime networkTime numGreenThreads splits iterations r e = Next r' ->
  idle r'.
Proof.
  unfold idle, step. intros Hcfg (Hx & Hcur & Hw & Hs & Hc & Hcl) Hstep.
  destruct e as [|g w|g| |d].
  - rewrite Hx, Hcur in Hstep.
    destruct (Z.ltb_spec 0 iterations); simpl in Hstep; [|discriminate].
    destruct (Z.leb_spec 1 (numGreenThreads - 0)); [|discriminate]. lia.
  - rewrite Hw in Hstep. discriminate.
  - rewrite Hs in Hstep. discriminate.
  - rewrite Hc in Hstep. destruct (iterations <=? x r); discriminate.
  - injection Hstep as <-. simpl. repeat split; assumption.
Qed.

(** With [splits = -1] every goroutine panics before it sends. *)
Lemma step_starved r e r' :
  splits = -1 ->
  starved r ->
  step workTime networkTime numGreenThreads splits iterations r e = Next r' ->
  starved r'.
Proof.
  unfold starved, step. intros Hsplits (Hs & Hc & Hcl) Hstep.
  destruct e as [|g w|g| |d].
  - destruct (_ && _); [|discriminate]. injection Hstep as <-. simpl. repeat split; assumption.
  - destruct (mem g (working r)); [|discriminate].
    unfold run_request in Hstep.
    rewrite doWork_divide_by_zero in Hstep by (subst splits; reflexivity).
    discriminate.
  - rewrite Hs in Hstep. discriminate.
  - rewrite Hc in Hstep. destruct (iterations <=? x r); discriminate.
  - injection Hstep as <-. simpl. repeat split; assumption.
Qed.

Lemma run_events_never_returns w evs r' :
  iterations <= 0 \/ numGreenThreads <= 0 \/ splits = -1 ->
  run_events workTime networkTime numGreenThreads splits iterations
    (initial w) evs <> Returned r'.
Proof.
  intros [Hit|[HL|Hsplits]].
  - apply (run_events_stuck _ _ _ _ _ idle idle_not_done).
    + intros r e r1. apply step_idle. left. exact Hit.
    + unfold idle. simpl. repeat split; reflexivity.
  - apply (run_events_stuck _ _ _ _ _ idle idle_not_done).
    + intros r e r1. apply step_idle. right. exact HL.
    + unfold idle. simpl. repeat split; reflexivity.
  - apply (run_events_stuck _ _ _ _ _ starved starved_not_done).
    + intros r e r1. apply step_starved. exact Hsplits.
    + unfold starved. simpl. repeat split; reflexivity.
Qed.

End NeverReturns.

(** Claim C6, as amended.  An iteration count that is not positive, a
    concurrency limit of zero (or less) and [splits = -1] each keep
    [runBenchmark] from returning a result, whatever the clock and the
    schedule: the program panics (the size of the channel, a division by
    zero) or main stays suspended.  No condition names the configuration. *)
Theorem unusable_configuration_never_returns
    workTime networkTime numGreenThreads splits baselineIterations iterations
    w evs b :
  iterations <= 0 \/ numGreenThreads <= 0 \/ splits = -1 ->
  runBenchmark workTime networkTime numGreenThreads splits
    baselineIterations iterations w evs <> Returned b.
Proof.
  intros Hcfg. unfold runBenchmark, runBenchmark_measured.
  destruct (baseline _ _ _ _ _) as [[bd s1]| |]; try discriminate.
  destruct (iterations <? 0); [discriminate|].
  destruct (run_events _ _ _ _ _ _ evs) as [r| |] eqn:Hrun; try discriminate.
  exfalso. revert Hrun. apply run_events_never_returns. exact Hcfg.
Qed.

Lemma unusable_configuration_never_returns_witness :
  runBenchmark 5000 55000 0 5 1 3 (mkWorld 0 1)
    [Launch; Work 0 (mkWorld 0 1); Release 0; Receive]
  <> Returned
       {| WorkTime := 5000; NetworkTime := 55000; Iterations := 3;
          NumCoroutines := 0; ThroughputRps := 0; Speedup := 0;
          CpuUtilization := 0; ResponseTimesMs := []; LongestRequest := [] |}.
Proof.
  apply (unusable_configuration_never_returns 5000 55000 0 5 1 3).
  right. left. lia.
Defined.

(** Claim C6 as stated fails: a baseline iteration count of zero, and
    negative splits other than [-1], are accepted, and the run returns a
    result. *)
Lemma invalid_configuration_accepted :
  (exists b,
     runBenchmark 5000 55000 1 5 0 1 (mkWorld 0 1)
       [Launch; Work 0 (mkWorld 0 1); Release 0; Receive] = Returned b) /\
  (exists b,
     runBenchmark 5000 55000 1 (-2) 1 1 (mkWorld 0 1)
       [Launch; Work 0 (mkWorld 0 1); Release 0; Receive] = Returned b).
Proof. split; vm_compute; eexists; reflexivity. Qed.

(* ------------------------------------------------------------------ *)
(** ** The percentile accessor: the error is dropped *)

(** All that the accessor does: it hands on the value of the library
    function and drops its error. *)
Lemma ResponseTimesPercentile_forwards
    (error : Type) (stats_Percentile : list float -> float -> float * option error)
    (b : BenchmarkResult) (pct : float) :
  ResponseTimesPercentile error stats_Percentile b pct
    = Ok (fst (stats_Percentile (ResponseTimesMs b) pct)).
Proof.
  unfold ResponseTimesPercentile.
  destruct (stats_Percentile (ResponseTimesMs b) pct). reflexivity.
Qed.

(** Claim C5, as amended.  On a result without latencies the accessor
    returns the value that [stats.Percentile] hands back for the empty
    sequence, whatever that function is, and the error that comes with it
    is dropped: the call does not fail. *)
Theorem percentile_of_nothing_returns
    (error : Type) (stats_Percentile : list float -> float -> float * option error)
    (b : BenchmarkResult) (pct : float) :
  ResponseTimesMs b = [] ->
  ResponseTimesPercentile error stats_Percentile b pct
    = Ok (fst (stats_Percentile [] pct)).
Proof.
  intros H. rewrite ResponseTimesPercentile_forwards, H. reflexivity.
Qed.

Lemma percentile_of_nothing_returns_witness :
  ResponseTimesPercentile unit rejects_empty no_latencies 50
    = Ok (fst (rejects_empty [] 50)).
Proof.
  apply (percentile_of_nothing_returns unit rejects_empty no_latencies 50).
  reflexivity.
Defined.

(** Claim C5 as stated fails: handed a library function that reports an
    error for the empty sequence, the accessor on a result without
    latencies returns a [float64] (here the NaN that came with the error);
    the call does not fail. *)
Lemma percentile_of_nothing_is_no_error :
  ResponseTimesMs no_latencies = [] /\
  snd (rejects_empty [] 50) = Some tt /\
  ResponseTimesPercentile unit rejects_empty no_latencies 50 = Ok nan /\
  ~ (exists p,
       ResponseTimesPercentile unit rejects_empty no_latencies 50 = Panics p).
Proof.
  repeat split. intros [p Hp]. discriminate Hp.
Qed.

(* ------------------------------------------------------------------ *)
(** ** The trace of a request: stamps, names and measured durations *)

Lemma Trace_lower name lo lo' t hi :
  lo' <= lo -> Trace name lo t hi -> Trace name lo' t hi.
Proof.
  intros Hlo H. destruct H; constructor; try assumption; lia.
Qed.

Lemma Trace_app name a t1 b : forall t2 c,
  Trace name a t1 b -> Trace name b t2 c -> Trace name a (t1 ++ t2) c.
Proof.
  intros t2 c H1 H2. induction H1; simpl.
  - apply (Trace_lower name hi lo); assumption.
  - constructor; auto.
  - constructor; auto.
Qed.

Lemma Trace_bounds name lo t hi : Trace name lo t hi -> lo <= hi.
Proof. induction 1; lia. Qed.

Lemma Trace_names name lo t hi :
  Trace name lo t hi -> Forall (fun l => name_of l = name) t.
Proof. induction 1; repeat constructor; assumption. Qed.

Lemma Trace_stamps name lo t hi :
  Trace name lo t hi ->
  Forall (fun l => lo <= stamp_of l < hi) t /\
  increasing (map stamp_of t).
Proof.
  induction 1 as [lo hi Hle|lo hi s e d t Hlo Hse Hd Ht [IHb IHi]
                 |lo hi s e d t Hlo Hse Hd Ht [IHb IHi]].
  - split; constructor.
  - pose proof (Trace_bounds _ _ _ _ Ht) as Hhi. split.
    + constructor; [simpl; lia|]. constructor; [simpl; lia|].
      eapply Forall_impl; [|exact IHb]. simpl. intros l Hl. lia.
    + simpl. split; [exact Hse|].
      destruct t as [|l t']; [exact I|]. simpl in *. split; [|exact IHi].
      inversion IHb; subst. lia.
  - pose proof (Trace_bounds _ _ _ _ Ht) as Hhi. split.
    + constructor; [simpl; lia|]. constructor; [simpl; lia|].
      eapply Forall_impl; [|exact IHb]. simpl. intros l Hl. lia.
    + simpl. split; [exact Hse|].
      destruct t as [|l t']; [exact I|]. simpl in *. split; [|exact IHi].
      inversion IHb; subst. lia.
Qed.

(** A trace of phases reads back as its phases, which command what its
    opening lines ask. *)
Lemma Trace_phases name lo t hi :
  Trace name lo t hi ->
  exists ps, trace_phases t = Some ps /\ commanded ps = total_asked t.
Proof.
  induction 1 as [| ? ? s e d t ? ? ? ? [ps [E C]] | ? ? s e d t ? ? ? ? [ps [E C]]].
  - exists []. split; reflexivity.
  - exists (Cpu d :: ps). simpl. rewrite Z.eqb_refl, E. split; [reflexivity|].
    unfold total_asked in *. simpl. rewrite C. lia.
  - exists (Net d :: ps). simpl. rewrite Z.eqb_refl, E. split; [reflexivity|].
    unfold total_asked in *. simpl. rewrite C. lia.
Qed.

Lemma total_asked_app t1 t2 :
  total_asked (t1 ++ t2) = total_asked t1 + total_asked t2.
Proof.
  unfold total_asked. induction t1 as [|l t1 IH]; simpl; [reflexivity|].
  rewrite IH. lia.
Qed.

Lemma traced_trans name s1 s2 s3 t1 t2 :
  traced name s1 s2 t1 -> traced name s2 s3 t2 ->
  traced name s1 s3 (t1 ++ t2).
Proof.
  intros (E1 & T1 & C1 & A1 & R1) (E2 & T2 & C2 & A2 & R2).
  repeat split.
  - rewrite E2, E1, app_assoc. reflexivity.
  - congruence.
  - lia.
  - rewrite total_asked_app. lia.
  - apply (Trace_app name _ t1 (clock (world s2))); assumption.
Qed.

(** A reading of the clock between two phases. *)
Lemma time_Now_traced name s :
  traced name s
    {| world := advance (world s) (Z.pos (tick (world s))); sb := sb s |} [].
Proof.
  repeat split; simpl; try lia; [now rewrite app_nil_r|].
  constructor. lia.
Qed.

(** The polling loop leaves at the first reading [e] by which [workTime]
    has passed since [start]: the reading before it, if any, was short of
    [workTime]. *)
Lemma busy_loop_exits fuel : forall start workTime s,
  workTime <= Go.max_int64 ->
  workTime - (clock (world s) - start) <= Z.of_nat fuel ->
  clock (world s) - start - Z.pos (tick (world s)) < Z.max workTime 1 ->
  exists e,
    busy_loop fuel start workTime s
      = Ok ((e, time_Sub e start),
            {| world := advance {| clock := e; tick := tick (world s) |}
                                (Z.pos (tick (world s)));
               sb := sb s |}) /\
    clock (world s) <= e /\
    workTime <= time_Sub e start /\
    e - start - Z.pos (tick (world s)) < Z.max workTime 1.
Proof.
  induction fuel as [|fuel IH]; intros start workTime s Hmax Hfuel Hprev;
    simpl busy_loop; rewrite (bind_Ok _ _ _ _ _ (time_Now_Ok s));
    destruct (Z.geb_spec (time_Sub (clock (world s)) start) workTime) as [Hge|Hlt].
  - exists (clock (world s)). destruct s as [[c0 tk] b]. simpl in *.
    repeat split; try lia.
  - apply clamp64_ge in Hlt; [|assumption]. simpl in Hfuel. lia.
  - exists (clock (world s)). destruct s as [[c0 tk] b]. simpl in *.
    repeat split; try lia.
  - apply clamp64_ge in Hlt; [|assumption].
    destruct (IH start workTime
                {| world := advance (world s) (Z.pos (tick (world s))); sb := sb s |}
                Hmax) as (e & E & Hle & Hd & Hlast).
    { simpl. lia. }
    { simpl. lia. }
    exists e. simpl in *. split; [exact E|]. repeat split; lia.
Qed.

(** A CPU slice: the opening line carries the first reading, the closing
    line the reading at which the loop left. *)
Lemma doCpuWork_traced workTime name s :
  workTime <= Go.max_int64 ->
  exists e s',
    doCpuWork workTime name s = Ok (tt, s') /\
    sb s' = sb s ++ [CpuStart (clock (world s)) name workTime;
                     CpuEnd e name workTime (time_Sub e (clock (world s)))] /\
    tick (world s') = tick (world s) /\
    clock (world s') = e + Z.pos (tick (world s)) /\
    clock (world s) + Z.pos (tick (world s)) <= e /\
    workTime <= time_Sub e (clock (world s)) /\
    e - clock (world s) - Z.pos (tick (world s)) < Z.max workTime 1.
Proof.
  intros Hmax. unfold doCpuWork.
  rewrite (bind_Ok _ _ _ _ _ (time_Now_Ok s)).
  destruct (busy_loop_exits (Z.to_nat workTime) (clock (world s)) workTime
              {| world := advance (world s) (Z.pos (tick (world s))); sb := sb s |}
              Hmax) as (e & E & Hle & Hd & Hlast).
  { simpl. lia. }
  { simpl. lia. }
  rewrite (bind_Ok _ _ _ _ _ E). simpl in *.
  eexists e, _. split; [reflexivity|]. simpl.
  rewrite <- app_assoc. repeat split; try assumption; lia.
Qed.

Lemma doCpuWork_is_traced workTime name s s' :
  workTime <= Go.max_int64 ->
  doCpuWork workTime name s = Ok (tt, s') ->
  exists e,
    traced name s s'
      [CpuStart (clock (world s)) name workTime;
       CpuEnd e name workTime (time_Sub e (clock (world s)))].
Proof.
  intros Hmax E.
  destruct (doCpuWork_traced workTime name s Hmax)
    as (e & s1 & E1 & Esb & Etick & Eclock & Hle & Hd & _).
  rewrite E1 in E. injection E as <-. exists e.
  assert (Hadv : workTime < e - clock (world s) + 1).
  { unfold time_Sub, Go.clamp64, Go.min_int64, Go.max_int64 in *. lia. }
  repeat split; try assumption; try lia.
  - unfold total_asked. simpl. lia.
  - constructor; try lia. constructor. lia.
Qed.

(** A network slice. *)
Lemma doNetworkWork_traced networkTime name s :
  networkTime <= Go.max_int64 ->
  exists e s',
    doNetworkWork networkTime name s = Ok (tt, s') /\
    e = clock (world s) + Z.pos (tick (world s)) + Z.max networkTime 0 /\
    traced name s s'
      [NetStart (clock (world s)) name networkTime;
       NetEnd e name networkTime (time_Sub e (clock (world s)))].
Proof.
  intros Hmax.
  unfold doNetworkWork, bind, time_Now, WriteString, time_Sleep. simpl.
  eexists _, _. split; [reflexivity|]. split; [reflexivity|].
  repeat split; simpl.
  - rewrite <- app_assoc. reflexivity.
  - lia.
  - unfold total_asked. cbn [fold_right asked]. lia.
  - constructor; try lia.
    + unfold time_Sub, Go.clamp64, Go.min_int64, Go.max_int64 in *. lia.
    + constructor. lia.
Qed.

(** The loop of [doWork], with its trace. *)
Lemma rounds_traced workTime networkTime splits name dc dn n :
  Go.quo workTime (Go.add splits 1) = Some dc ->
  Go.quo networkTime splits = Some dn ->
  forall i s,
  exists s' t,
    for_loop n i
      (fun _ =>
         dn <- div networkTime splits ;;
         doNetworkWork dn name ;;
         dc <- div workTime (Go.add splits 1) ;;
         doCpuWork dc name) s = Ok (tt, s') /\
    sb s' = sb s ++ t /\ tick (world s') = tick (world s) /\
    clock (world s) <= clock (world s') /\
    clock (world s) + total_asked t <= clock (world s') /\
    Trace name (clock (world s)) t (clock (world s')) /\
    trace_phases t = Some (rounds n dc dn).
Proof.
  intros Hc Hn.
  assert (Hdc : dc <= Go.max_int64)
    by (apply quo_range in Hc; unfold Go.in_int64 in Hc; lia).
  assert (Hdn : dn <= Go.max_int64)
    by (apply quo_range in Hn; unfold Go.in_int64 in Hn; lia).
  induction n as [|n IH]; intros i s.
  - exists s, []. simpl. rewrite app_nil_r.
    repeat split; try lia. constructor. lia.
  - simpl for_loop. unfold div at 1 2. rewrite Hc, Hn.
    destruct (doNetworkWork_traced dn name s Hdn) as (e1 & s1 & E1 & _ & X1).
    destruct (doCpuWork_traced dc name s1 Hdc)
      as (e2 & s2 & E2 & _ & _ & _ & _ & _ & _).
    destruct (doCpuWork_is_traced dc name s1 s2 Hdc E2) as (e2' & X2).
    destruct (IH (i + 1) s2) as (s3 & t3 & E3 & Esb & Etick & Eclock & Easked & Etr & Eph).
    pose proof (traced_trans _ _ _ _ _ _ X1 X2) as (Esb12 & Etick12 & Eclock12 & Easked12 & Etr12).
    exists s3,
      (([NetStart (clock (world s)) name dn;
         NetEnd e1 name dn (time_Sub e1 (clock (world s)))] ++
        [CpuStart (clock (world s1)) name dc;
         CpuEnd e2' name dc (time_Sub e2' (clock (world s1)))]) ++ t3).
    split.
    { unfold bind at 1. unfold bind at 1. unfold ret at 1.
      unfold bind at 1. rewrite E1.
      unfold bind at 1. unfold ret at 1.
      unfold bind at 1. rewrite E2. exact E3. }
    split; [rewrite Esb, Esb12, <- !app_assoc; reflexivity|].
    split; [congruence|]. split; [lia|].
    split; [rewrite total_asked_app; lia|].
    split; [apply (Trace_app name _ _ (clock (world s2))); assumption|].
    apply (trace_phases_app _ t3 [Net dn; Cpu dc] (rounds n dc dn)); [|exact Eph].
    apply (trace_phases_app _ _ [Net dn] [Cpu dc]);
      [apply trace_phases_net | apply trace_phases_cpu].
Qed.

(** A request whose first division returns: its trace, and what it
    reports as elapsed. *)
Lemma doWork_traced workTime networkTime splits name dc s :
  Go.quo workTime (Go.add splits 1) = Some dc ->
  exists s' t,
    doWork workTime networkTime splits name s
      = Ok (time_Sub (clock (world s') - Z.pos (tick (world s))) (clock (world s)), s') /\
    traced name s s' t /\
    clock (world s) + Z.pos (tick (world s)) + total_asked t
      <= clock (world s') - Z.pos (tick (world s)) /\
    trace_phases t =
      Some (alternation (Z.to_nat splits) dc
              (Go.wrap64 (Z.quot networkTime splits))).
Proof.
  intros Hc.
  assert (Hdc : dc <= Go.max_int64)
    by (apply quo_range in Hc; unfold Go.in_int64 in Hc; lia).
  unfold doWork.
  rewrite (bind_Ok _ _ _ _ _ (time_Now_Ok s)).
  pose proof (time_Now_traced name s) as X0.
  set (s0 := {| world := advance (world s) (Z.pos (tick (world s))); sb := sb s |}) in *.
  unfold div at 1. rewrite Hc. unfold bind at 1, ret at 1.
  destruct (doCpuWork_traced dc name s0 Hdc)
    as (e1 & s1 & E1 & _ & _ & _ & _ & _ & _).
  destruct (doCpuWork_is_traced dc name s0 s1 Hdc E1) as (e1' & X1).
  rewrite (bind_Ok _ _ _ _ _ E1).
  assert (exists s2 rest,
    for_loop (Z.to_nat splits) 0
      (fun _ =>
         dn <- div networkTime splits ;;
         doNetworkWork dn name ;;
         dc <- div workTime (Go.add splits 1) ;;
         doCpuWork dc name) s1 = Ok (tt, s2) /\
    sb s2 = sb s1 ++ rest /\ tick (world s2) = tick (world s1) /\
    clock (world s1) <= clock (world s2) /\
    clock (world s1) + total_asked rest <= clock (world s2) /\
    Trace name (clock (world s1)) rest (clock (world s2)) /\
    trace_phases rest =
      Some (rounds (Z.to_nat splits) dc (Go.wrap64 (Z.quot networkTime splits))))
    as (s2 & rest & E2 & Esb & Etick & Eclock & Easked & Etr & Eph).
  { destruct (Z_le_gt_dec splits 0) as [Hle|Hgt].
    - exists s1, []. replace (Z.to_nat splits) with 0%nat by lia.
      simpl. rewrite app_nil_r. repeat split; try lia. constructor. lia.
    - assert (Hn : Go.quo networkTime splits
                   = Some (Go.wrap64 (Z.quot networkTime splits))).
      { unfold Go.quo. destruct (Z.eqb_spec splits 0); [lia|reflexivity]. }
      apply (rounds_traced workTime networkTime splits name dc _
               (Z.to_nat splits) Hc Hn 0 s1). }
  rewrite (bind_Ok _ _ _ _ _ E2).
  pose proof (traced_trans _ _ _ _ _ _ X0 X1) as (Esb1 & Etick1 & Eclock1 & Easked1 & Etr1).
  simpl app in *.
  destruct X1 as (_ & _ & _ & Easked1' & _).
  unfold time_Since. rewrite (bind_Ok _ _ _ _ _ (time_Now_Ok s2)). unfold ret.
  subst s0. cbn [world sb clock tick advance] in *.
  exists {| world := advance (world s2) (Z.pos (tick (world s2))); sb := sb s2 |},
    ([CpuStart (clock (world s) + Z.pos (tick (world s))) name dc;
      CpuEnd e1' name dc
        (time_Sub e1' (clock (world s) + Z.pos (tick (world s))))] ++ rest).
  unfold traced. cbn [world sb clock tick advance].
  split.
  { rewrite Etick, Etick1. do 3 f_equal. lia. }
  split.
  { split; [rewrite Esb, Esb1, <- app_assoc; reflexivity|].
    split; [congruence|]. split; [lia|].
    split; [rewrite total_asked_app; lia|].
    apply (Trace_app name _ _ (clock (world s1))); [assumption|].
    rewrite <- (app_nil_r rest).
    apply (Trace_app name _ rest (clock (world s2)) [] _ Etr).
    constructor. lia. }
  split.
  { rewrite total_asked_app, Etick, Etick1. lia. }
  apply (trace_phases_app _ rest [Cpu dc] _ (trace_phases_cpu _ _ _ _ _) Eph).
Qed.

(** Property X1.  [doCpuWork] with a [workTime] that is a duration returns,
    having polled the clock at least once.  It appends two lines: the
    opening line stamped with its first reading and the closing line
    stamped with the reading [e] at which the loop left, which reports the
    time between the two.  That time is not below [workTime]; it is one
    poll for a [workTime] that is not positive, and otherwise less than one
    step of the clock above [workTime]. *)
Theorem doCpuWork_busy_waits workTime name s :
  workTime <= Go.max_int64 ->
  exists e s',
    doCpuWork workTime name s = Ok (tt, s') /\
    sb s' = sb s ++ [CpuStart (clock (world s)) name workTime;
                     CpuEnd e name workTime (time_Sub e (clock (world s)))] /\
    clock (world s') = e + Z.pos (tick (world s)) /\
    clock (world s) + Z.pos (tick (world s)) <= e /\
    workTime <= time_Sub e (clock (world s)) /\
    (workTime <= 0 -> e = clock (world s) + Z.pos (tick (world s))) /\
    (0 < workTime -> e - clock (world s) < workTime + Z.pos (tick (world s))).
Proof.
  intros Hmax.
  destruct (doCpuWork_traced workTime name s Hmax)
    as (e & s' & E & Esb & _ & Eclock & Hle & Hd & Hlast).
  exists e, s'.
  split; [exact E|]. split; [exact Esb|]. split; [exact Eclock|].
  split; [exact Hle|]. split; [exact Hd|].
  split; intros H; lia.
Qed.

Lemma doCpuWork_busy_waits_witness :
  exists e s',
    doCpuWork 2500 (request_name 1) (mkSt (mkWorld 100 1000) []) = Ok (tt, s') /\
    sb s' = [] ++ [CpuStart 100 (request_name 1) 2500;
                   CpuEnd e (request_name 1) 2500 (time_Sub e 100)] /\
    clock (world s') = e + 1000 /\
    100 + 1000 <= e /\
    2500 <= time_Sub e 100 /\
    (2500 <= 0 -> e = 100 + 1000) /\
    (0 < 2500 -> e - 100 < 2500 + 1000).
Proof.
  apply (doCpuWork_busy_waits 2500 (request_name 1) (mkSt (mkWorld 100 1000) [])).
  unfold Go.max_int64. lia.
Defined.

Lemma increasing_nondecreasing zs : increasing zs -> nondecreasing zs.
Proof.
  induction zs as [|z zs IH]; [exact id|].
  destruct zs as [|z' zs]; [exact id|].
  intros [Hlt Hinc]. split; [lia|]. apply IH. exact Hinc.
Qed.

Lemma Logged_lower name lo lo' t hi :
  Logged name lo t hi -> lo' <= lo -> lo' <= hi -> Logged name lo' t hi.
Proof.
  intros H Hlo Hhi. destruct H.
  - constructor. exact Hhi.
  - constructor; try assumption. lia.
  - constructor; try assumption. lia.
Qed.

(** What a trace shows on the clock of the model it shows on a clock whose
    readings may coincide. *)
Lemma Trace_Logged name lo t hi : Trace name lo t hi -> Logged name lo t hi.
Proof.
  induction 1 as [lo hi Hle|lo hi s e d t Hlo Hse Hd Ht IH
                 |lo hi s e d t Hlo Hse Hd Ht IH].
  - constructor. exact Hle.
  - pose proof (Trace_bounds _ _ _ _ Ht).
    constructor; [assumption|lia|assumption|].
    apply (Logged_lower _ _ _ _ _ IH); lia.
  - pose proof (Trace_bounds _ _ _ _ Ht).
    constructor; [assumption|lia|].
    apply (Logged_lower _ _ _ _ _ IH); lia.
Qed.

(** Property X2.  Whenever a request returns, the lines it has appended all
    carry its name, their stamps lie between the clock at its start and the
    clock at its end and never decrease from line to line (although the
    opening line of a CPU slice is written only after the slice), every
    closing line reports the saturated difference of the two stamps of its
    phase, and for a CPU slice that difference is not below the commanded
    duration.  None of this rests on the clock advancing between two
    readings. *)
Theorem doWork_trace_in_order workTime networkTime splits name s elapsed s' :
  doWork workTime networkTime splits name s = Ok (elapsed, s') ->
  exists t,
    sb s' = sb s ++ t /\
    Forall (fun l => name_of l = name) t /\
    Forall (fun l => clock (world s) <= stamp_of l <= clock (world s')) t /\
    nondecreasing (map stamp_of t) /\
    Logged name (clock (world s)) t (clock (world s')).
Proof.
  intros E.
  destruct (Go.quo workTime (Go.add splits 1)) as [dc|] eqn:Q.
  - destruct (doWork_traced workTime networkTime splits name dc s Q)
      as (s1 & t & E1 & (Esb & _ & _ & _ & Htr) & _ & _).
    rewrite E1 in E. injection E as _ <-.
    exists t. split; [exact Esb|].
    split; [exact (Trace_names _ _ _ _ Htr)|].
    destruct (Trace_stamps _ _ _ _ Htr) as [Hb Hi].
    split; [|split].
    + eapply Forall_impl; [|exact Hb]. simpl. intros l Hl. lia.
    + apply increasing_nondecreasing. exact Hi.
    + apply Trace_Logged. exact Htr.
  - unfold Go.quo in Q.
    destruct (Z.eqb_spec (Go.add splits 1) 0) as [E0|]; [|discriminate].
    rewrite (doWork_divide_by_zero _ _ _ _ _ E0) in E. discriminate.
Qed.

Lemma doWork_request_7 :
  doWork 6 55 2 (request_name 7) (mkSt (mkWorld 100 1) [])
  = Ok (68,
        mkSt (mkWorld 169 1)
          [CpuStart 101 "Request 7" 2; CpuEnd 103 "Request 7" 2 2;
           NetStart 104 "Request 7" 27; NetEnd 132 "Request 7" 27 28;
           CpuStart 133 "Request 7" 2; CpuEnd 135 "Request 7" 2 2;
           NetStart 136 "Request 7" 27; NetEnd 164 "Request 7" 27 28;
           CpuStart 165 "Request 7" 2; CpuEnd 167 "Request 7" 2 2]).
Proof. vm_compute. reflexivity. Qed.

Lemma doWork_trace_in_order_witness :
  exists t,
    [CpuStart 101 "Request 7" 2; CpuEnd 103 "Request 7" 2 2;
     NetStart 104 "Request 7" 27; NetEnd 132 "Request 7" 27 28;
     CpuStart 133 "Request 7" 2; CpuEnd 135 "Request 7" 2 2;
     NetStart 136 "Request 7" 27; NetEnd 164 "Request 7" 27 28;
     CpuStart 165 "Request 7" 2; CpuEnd 167 "Request 7" 2 2] = [] ++ t /\
    Forall (fun l => name_of l = request_name 7) t /\
    Forall (fun l => 100 <= stamp_of l <= 169) t /\
    nondecreasing (map stamp_of t) /\
    Logged (request_name 7) 100 t 169.
Proof.
  exact (doWork_trace_in_order 6 55 2 (request_name 7) (mkSt (mkWorld 100 1) [])
           68 _ doWork_request_7).
Defined.

(** Property X3.  Whenever a request returns, the elapsed time it reports is
    not negative and covers what its phases were commanded in all: it is at
    least their total when that total is a duration, and the largest
    duration otherwise. *)
Theorem doWork_elapsed_covers_phases
    workTime networkTime splits name s elapsed s' :
  doWork workTime networkTime splits name s = Ok (elapsed, s') ->
  exists t ps,
    sb s' = sb s ++ t /\
    trace_phases t = Some ps /\
    0 <= elapsed /\
    (commanded ps <= Go.max_int64 -> commanded ps <= elapsed) /\
    (Go.max_int64 < commanded ps -> elapsed = Go.max_int64).
Proof.
  intros E.
  destruct (Go.quo workTime (Go.add splits 1)) as [dc|] eqn:Q.
  - destruct (doWork_traced workTime networkTime splits name dc s Q)
      as (s1 & t & E1 & (Esb & _ & Hclock & _ & Htr) & Hadv & Eph).
    destruct (doWork_returns workTime networkTime splits name dc s Q)
      as (el & s2 & _ & _ & _ & _ & E2 & _ & _ & _ & Hpos).
    rewrite E in E2. injection E2 as <- _.
    rewrite E1 in E. injection E as Eel <-.
    destruct (Trace_phases _ _ _ _ Htr) as (ps & Eps & Ecmd).
    exists t, ps. split; [exact Esb|]. split; [exact Eps|].
    split; [lia|].
    rewrite Ecmd, <- Eel.
    unfold time_Sub, Go.clamp64, Go.min_int64, Go.max_int64 in *.
    split; lia.
  - unfold Go.quo in Q.
    destruct (Z.eqb_spec (Go.add splits 1) 0) as [E0|]; [|discriminate].
    rewrite (doWork_divide_by_zero _ _ _ _ _ E0) in E. discriminate.
Qed.

Lemma doWork_elapsed_covers_phases_witness :
  exists t ps,
    [CpuStart 101 "Request 7" 2; CpuEnd 103 "Request 7" 2 2;
     NetStart 104 "Request 7" 27; NetEnd 132 "Request 7" 27 28;
     CpuStart 133 "Request 7" 2; CpuEnd 135 "Request 7" 2 2;
     NetStart 136 "Request 7" 27; NetEnd 164 "Request 7" 27 28;
     CpuStart 165 "Request 7" 2; CpuEnd 167 "Request 7" 2 2] = [] ++ t /\
    trace_phases t = Some ps /\
    0 <= 68 /\
    (commanded ps <= Go.max_int64 -> commanded ps <= 68) /\
    (Go.max_int64 < commanded ps -> 68 = Go.max_int64).
Proof.
  exact (doWork_elapsed_covers_phases 6 55 2 (request_name 7)
           (mkSt (mkWorld 100 1) []) 68 _ doWork_request_7).
Defined.

Lemma add_1_zero splits :
  Go.in_int64 splits -> (Go.add splits 1 = 0 <-> splits = -1).
Proof.
  intros H. destruct (Z.eq_dec splits Go.max_int64) as [->|Hne].
  - rewrite add_1_max. unfold Go.min_int64, Go.max_int64. lia.
  - rewrite add_1 by int64. lia.
Qed.

(** Property X4.  [doWork] panics exactly when [splits] is [-1], with the
    division by zero of its first slice.  Any other [splits] returns, a
    negative one included: below [-1] the request is a single CPU slice
    commanded [workTime / (splits + 1)], of the sign opposite to
    [workTime], and no network slice. *)
Theorem doWork_panics_exactly_at_minus_one
    workTime networkTime splits name s :
  Go.in_int64 workTime -> Go.in_int64 splits ->
  (doWork workTime networkTime splits name s = Panics DivideByZero
   <-> splits = -1) /\
  (splits <> -1 ->
   exists elapsed s',
     doWork workTime networkTime splits name s = Ok (elapsed, s')) /\
  (splits < -1 -> Go.min_int64 < workTime ->
   exists elapsed s' t t' took,
     doWork workTime networkTime splits name s = Ok (elapsed, s') /\
     sb s' = sb s ++ [CpuStart t name (Z.quot workTime (splits + 1));
                      CpuEnd t' name (Z.quot workTime (splits + 1)) took] /\
     (0 <= workTime -> Z.quot workTime (splits + 1) <= 0) /\
     (workTime <= 0 -> 0 <= Z.quot workTime (splits + 1))).
Proof.
  intros Hw Hs. pose proof (add_1_zero splits Hs) as Hz.
  assert (Hok : splits <> -1 ->
            exists dc, Go.quo workTime (Go.add splits 1) = Some dc).
  { intros Hne. unfold Go.quo.
    destruct (Z.eqb_spec (Go.add splits 1) 0) as [E0|]; [tauto|eauto]. }
  split; [|split].
  - split.
    + intros E. destruct (Z.eq_dec splits (-1)) as [|Hne]; [assumption|].
      destruct (Hok Hne) as [dc Q].
      destruct (doWork_returns workTime networkTime splits name dc s Q)
        as (? & ? & ? & ? & ? & ? & E' & _).
      rewrite E' in E. discriminate.
    + intros ->. apply doWork_divide_by_zero. reflexivity.
  - intros Hne. destruct (Hok Hne) as [dc Q].
    destruct (doWork_returns workTime networkTime splits name dc s Q)
      as (elapsed & s' & ? & ? & ? & ? & E' & _).
    exists elapsed, s'. exact E'.
  - intros Hlt Hmin.
    assert (Habs : Z.abs (Z.quot workTime (splits + 1)) <= Z.abs workTime).
    { rewrite <- Z.quot_abs by lia.
      apply Z.quot_le_upper_bound; [lia|]. nia. }
    assert (Q : Go.quo workTime (Go.add splits 1)
                = Some (Z.quot workTime (splits + 1))).
    { rewrite add_1 by int64. unfold Go.quo.
      destruct (Z.eqb_spec (splits + 1) 0); [lia|]. f_equal.
      apply wrap64_id. int64. }
    destruct (doWork_returns workTime networkTime splits name _ s Q)
      as (elapsed & s' & t & t' & took & rest & E' & Esb & _ & Enil & _).
    rewrite (Enil ltac:(lia)), app_nil_r in Esb.
    exists elapsed, s', t, t', took. split; [exact E'|]. split; [exact Esb|].
    split; intros Hsign.
    + replace (splits + 1) with (- (- (splits + 1))) by lia.
      rewrite Z.quot_opp_r by lia.
      pose proof (Z.quot_pos workTime (- (splits + 1)) ltac:(lia) ltac:(lia)). lia.
    + replace workTime with (- (- workTime)) at 1 by lia.
      replace (splits + 1) with (- (- (splits + 1))) by lia.
      rewrite Z.quot_opp_opp by lia.
      apply Z.quot_pos; lia.
Qed.

Lemma doWork_panics_exactly_at_minus_one_witness :
  (doWork 6 55 (-3) (request_name 0) (mkSt (mkWorld 0 1) []) = Panics DivideByZero
   <-> -3 = -1) /\
  (-3 <> -1 ->
   exists elapsed s',
     doWork 6 55 (-3) (request_name 0) (mkSt (mkWorld 0 1) []) = Ok (elapsed, s')) /\
  (-3 < -1 -> Go.min_int64 < 6 ->
   exists elapsed s' t t' took,
     doWork 6 55 (-3) (request_name 0) (mkSt (mkWorld 0 1) []) = Ok (elapsed, s') /\
     sb s' = [] ++ [CpuStart t (request_name 0) (Z.quot 6 (-3 + 1));
                    CpuEnd t' (request_name 0) (Z.quot 6 (-3 + 1)) took] /\
     (0 <= 6 -> Z.quot 6 (-3 + 1) <= 0) /\
     (6 <= 0 -> 0 <= Z.quot 6 (-3 + 1))).
Proof.
  apply (doWork_panics_exactly_at_minus_one 6 55 (-3) (request_name 0)
           (mkSt (mkWorld 0 1) []));
    unfold Go.in_int64, Go.min_int64, Go.max_int64; lia.
Defined.

(* ------------------------------------------------------------------ *)
(** ** The concurrent phase: counting *)

Lemma mem_In g l : mem g l = true <-> In g l.
Proof.
  unfold mem. rewrite existsb_exists. split.
  - intros (h & Hin & Heq). apply Z.eqb_eq in Heq. subst. exact Hin.
  - intros Hin. exists g. split; [exact Hin|apply Z.eqb_refl].
Qed.

Lemma drop_not_In g l : ~ In g (drop g l).
Proof.
  unfold drop. rewrite filter_In. intros [_ H].
  rewrite Z.eqb_refl in H. discriminate.
Qed.

Lemma drop_In g h l : In h (drop g l) -> In h l.
Proof. unfold drop. rewrite filter_In. tauto. Qed.

Lemma drop_absent g l : ~ In g l -> drop g l = l.
Proof.
  unfold drop. induction l as [|h l IH]; simpl; [reflexivity|].
  intros Hn. destruct (Z.eqb_spec g h) as [->|Hne]; simpl.
  - exfalso. apply Hn. left. reflexivity.
  - f_equal. apply IH. tauto.
Qed.

(** Dropping a goroutine from a list in which it stands once. *)
Lemma drop_Permutation g l :
  NoDup l -> In g l -> Permutation l (g :: drop g l).
Proof.
  induction l as [|h l IH]; intros Hnd Hin; [contradiction|].
  inversion Hnd as [|? ? Hh Hl]; subst.
  unfold drop. simpl. destruct (Z.eqb_spec g h) as [->|Hne]; simpl.
  - fold (drop h l). rewrite (drop_absent h l Hh). reflexivity.
  - destruct Hin as [->|Hin]; [contradiction|].
    fold (drop g l). rewrite (IH Hl Hin) at 1. apply perm_swap.
Qed.

Lemma drop_length_exact g l :
  NoDup l -> In g l -> S (List.length (drop g l)) = List.length l.
Proof.
  intros Hnd Hin. rewrite (Permutation_length (drop_Permutation g l Hnd Hin)).
  reflexivity.
Qed.

Section Counting.

Variables workTime networkTime numGreenThreads splits iterations : Z.
Hypothesis iterations_int : iterations <= Go.max_int64.

Lemma step_tight r e r' :
  tight iterations r ->
  step workTime networkTime numGreenThreads splits iterations r e = Next r' ->
  tight iterations r' /\
  progress r' = progress r + (if is_step e then 1 else 0).
Proof.
  unfold tight, progress, step.
  intros (Hnd & Hall & Hcur & Hx & Hxit & Hcl & Hsent & Hms) Hstep.
  destruct e as [|g w|g| |d].
  - (* Launch *)
    destruct (Z.ltb_spec (x r) iterations); simpl in Hstep; [|discriminate].
    destruct (1 <=? numGreenThreads - cur r); [|discriminate].
    injection Hstep as <-. simpl.
    assert (Hadd : Go.add (x r) 1 = x r + 1)
      by (apply add_1; unfold Go.min_int64; lia).
    rewrite Hadd.
    assert (Hperm : Permutation ((working r ++ [x r]) ++ sent r)
                      (x r :: working r ++ sent r)).
    { rewrite <- app_assoc. symmetry. apply Permutation_middle. }
    split; [|rewrite ?length_app; simpl; lia].
    split.
    { apply (Permutation_NoDup (Permutation_sym Hperm)). constructor; [|exact Hnd].
      intros Hin. rewrite Forall_forall in Hall. specialize (Hall _ Hin). lia. }
    split.
    { apply (Permutation_Forall (Permutation_sym Hperm)). constructor; [lia|].
      eapply Forall_impl; [|exact Hall]. simpl. intros; lia. }
    rewrite ?length_app. simpl. repeat split; try tauto; lia.
  - (* Work *)
    destruct (mem g (working r)) eqn:Hmem; [|discriminate].
    destruct (run_request _ _ _ _ _) as [[t out]| |]; try discriminate.
    destruct (closed r) eqn:Hclosed; [discriminate|].
    destruct (Z.ltb_spec (Z.of_nat (List.length (c r))) iterations); [|discriminate].
    injection Hstep as <-. simpl.
    apply mem_In in Hmem.
    pose proof (NoDup_app_remove_r _ _ Hnd) as Hndw.
    pose proof (drop_length_exact g _ Hndw Hmem) as Hlen.
    assert (Hperm : Permutation (working r ++ sent r)
                      (drop g (working r) ++ sent r ++ [g])).
    { rewrite (drop_Permutation g _ Hndw Hmem) at 1. simpl.
      rewrite app_assoc. apply Permutation_cons_append. }
    split; [|rewrite ?length_app; simpl; lia].
    split; [apply (Permutation_NoDup Hperm Hnd)|].
    split; [apply (Permutation_Forall Hperm Hall)|].
    rewrite ?length_app. simpl. repeat split; try tauto; lia.
  - (* Release *)
    destruct (mem g (sent r)) eqn:Hmem; [|discriminate].
    destruct (Z.ltb_spec (cur r - 1) 0); [discriminate|].
    injection Hstep as <-. simpl.
    apply mem_In in Hmem.
    pose proof (NoDup_app_remove_l _ _ Hnd) as Hnds.
    pose proof (drop_length_exact g _ Hnds Hmem) as Hlen.
    assert (Hperm : Permutation (working r ++ sent r)
                      (g :: working r ++ drop g (sent r))).
    { rewrite (drop_Permutation g _ Hnds Hmem) at 1.
      symmetry. apply Permutation_middle. }
    split; [|lia].
    split.
    { pose proof (Permutation_NoDup Hperm Hnd) as H1. inversion H1; assumption. }
    split.
    { pose proof (Permutation_Forall Hperm Hall) as H1. inversion H1; assumption. }
    repeat split; try tauto; lia.
  - (* Receive *)
    destruct (Z.leb_spec iterations (x r)); [|discriminate].
    destruct (c r) as [|res rest] eqn:Hc; [discriminate|].
    destruct (_ && closed r) eqn:Hfull; [discriminate|].
    injection Hstep as <-.
    cbn [main x cur working sent c closed responseTimesMs longestRequest
         received] in *.
    rewrite ?length_app in *. cbn [List.length is_step] in *.
    split; [|lia].
    split; [exact Hnd|]. split; [exact Hall|].
    split; [exact Hcur|]. split; [lia|]. split; [lia|].
    split.
    { rewrite Hms, length_map.
      rewrite orb_true_iff, Z.eqb_eq. split.
      - intros [Hc1|Hc1]; [apply Hcl in Hc1; lia|lia].
      - intros Hle.
        destruct (Z_lt_ge_dec (Z.of_nat (List.length (received r))) iterations);
          [right; lia|left; apply Hcl; lia]. }
    split; [lia|].
    rewrite Hms, map_app. reflexivity.
  - (* Elapse *)
    injection Hstep as <-. simpl. split; [|lia]. repeat split; try tauto.
Qed.

Lemma exec_tight evs : forall r r',
  tight iterations r ->
  exec workTime networkTime numGreenThreads splits iterations r evs = Some r' ->
  tight iterations r' /\ progress r' = progress r + steps evs.
Proof.
  induction evs as [|e evs IH]; intros r r' Hok Hexec; simpl in Hexec.
  - injection Hexec as <-. unfold steps. simpl. split; [assumption|lia].
  - destruct (step workTime networkTime numGreenThreads splits iterations r e)
      as [r1| |] eqn:Hstep; try discriminate.
    destruct (step_tight r e r1 Hok Hstep) as [Hok1 Hp1].
    destruct (IH r1 r' Hok1 Hexec) as [Hok' Hp'].
    split; [assumption|]. rewrite Hp', Hp1. unfold steps. simpl.
    destruct (is_step e); simpl; lia.
Qed.

(** The steps counted from the state are at most four for each request. *)
Lemma progress_bound r :
  tight iterations r -> 0 <= progress r <= 4 * iterations.
Proof.
  unfold tight, progress.
  intros (_ & _ & _ & Hx & Hxit & _ & Hsent & _). lia.
Qed.

Lemma initial_tight w : 1 <= iterations -> tight iterations (initial w).
Proof.
  intros H. unfold tight. simpl.
  repeat split; try constructor; try lia; try discriminate.
Qed.

End Counting.

Section Channel.

Variables workTime networkTime numGreenThreads splits iterations : Z.

(** The channel hands on what was sent, in the order it was sent. *)
Lemma exec_fifo evs : forall r r',
  exec workTime networkTime numGreenThreads splits iterations r evs = Some r' ->
  received r' ++ c r'
  = (received r ++ c r) ++ sends workTime networkTime splits evs.
Proof.
  induction evs as [|e evs IH]; intros r r' Hexec; simpl in Hexec.
  - injection Hexec as <-. simpl. rewrite app_nil_r. reflexivity.
  - destruct (step workTime networkTime numGreenThreads splits iterations r e)
      as [r1| |] eqn:Hstep; try discriminate.
    rewrite (IH r1 r' Hexec). clear IH Hexec.
    unfold step in Hstep. destruct e as [|g w|g| |d]; simpl sends.
    + destruct (_ && _); [|discriminate]. injection Hstep as <-. reflexivity.
    + destruct (mem g (working r)); [|discriminate].
      destruct (run_request _ _ _ _ _) as [[t out]| |]; try discriminate.
      destruct (closed r); [discriminate|].
      destruct (_ <? iterations); [|discriminate].
      injection Hstep as <-. simpl. rewrite <- !app_assoc. reflexivity.
    + destruct (mem g (sent r)); [|discriminate].
      destruct (_ <? 0); [discriminate|]. injection Hstep as <-. reflexivity.
    + destruct (iterations <=? x r); [|discriminate].
      destruct (c r) as [|res rest]; [discriminate|].
      destruct (_ && closed r); [discriminate|].
      injection Hstep as <-. simpl. rewrite <- !app_assoc. reflexivity.
    + injection Hstep as <-. reflexivity.
Qed.

(** No request runs twice. *)
Lemma exec_distinct evs : forall r r' past,
  iterations <= Go.max_int64 ->
  distinct r past ->
  exec workTime networkTime numGreenThreads splits iterations r evs = Some r' ->
  distinct r' (past ++ workers evs).
Proof.
  induction evs as [|e evs IH]; intros r r' past Hmax Hd Hexec; simpl in Hexec.
  - injection Hexec as <-. simpl. rewrite app_nil_r. exact Hd.
  - destruct (step workTime networkTime numGreenThreads splits iterations r e)
      as [r1| |] eqn:Hstep; try discriminate.
    destruct Hd as (Hx & Hnd & Hall).
    unfold step in Hstep. destruct e as [|g w|g| |d]; simpl workers.
    + destruct (Z.ltb_spec (x r) iterations); simpl in Hstep; [|discriminate].
      destruct (1 <=? numGreenThreads - cur r); [|discriminate].
      injection Hstep as <-. refine (IH _ r' past Hmax _ Hexec).
      unfold distinct. simpl.
      rewrite add_1 by (unfold Go.min_int64; lia).
      rewrite app_assoc. split; [lia|]. split.
      * apply NoDup_app; [exact Hnd|repeat constructor; simpl; tauto|].
        intros g Hin [<-|[]]. rewrite Forall_forall in Hall.
        specialize (Hall _ Hin). lia.
      * apply Forall_app. split.
        -- eapply Forall_impl; [|exact Hall]. simpl. intros; lia.
        -- repeat constructor; lia.
    + destruct (mem g (working r)) eqn:Hmem; [|discriminate].
      destruct (run_request _ _ _ _ _) as [[t out]| |]; try discriminate.
      destruct (closed r); [discriminate|].
      destruct (_ <? iterations); [|discriminate].
      injection Hstep as <-.
      change (past ++ g :: workers evs) with (past ++ [g] ++ workers evs).
      rewrite app_assoc. refine (IH _ r' (past ++ [g]) Hmax _ Hexec).
      unfold distinct. simpl. apply mem_In in Hmem.
      pose proof (NoDup_app_remove_l _ _ Hnd) as Hndw.
      assert (Hperm : Permutation (past ++ working r)
                        ((past ++ [g]) ++ drop g (working r))).
      { rewrite (drop_Permutation g _ Hndw Hmem) at 1.
        rewrite <- app_assoc. reflexivity. }
      split; [exact Hx|]. split.
      * apply (Permutation_NoDup Hperm Hnd).
      * apply (Permutation_Forall Hperm Hall).
    + destruct (mem g (sent r)); [|discriminate].
      destruct (_ <? 0); [discriminate|]. injection Hstep as <-.
      refine (IH _ r' past Hmax _ Hexec). repeat split; assumption.
    + destruct (iterations <=? x r); [|discriminate].
      destruct (c r) as [|res rest]; [discriminate|].
      destruct (_ && closed r); [discriminate|].
      injection Hstep as <-.
      refine (IH _ r' past Hmax _ Hexec). repeat split; assumption.
    + injection Hstep as <-.
      refine (IH _ r' past Hmax _ Hexec). repeat split; assumption.
Qed.

Lemma workers_sends_length evs : forall r r',
  exec workTime networkTime numGreenThreads splits iterations r evs = Some r' ->
  List.length (sends workTime networkTime splits evs)
  = List.length (workers evs).
Proof.
  induction evs as [|e evs IH]; intros r r' Hexec; simpl in Hexec; [reflexivity|].
  destruct (step workTime networkTime numGreenThreads splits iterations r e)
    as [r1| |] eqn:Hstep; try discriminate.
  specialize (IH r1 r' Hexec).
  unfold step in Hstep. destruct e as [|g w|g| |d]; simpl; try exact IH.
  destruct (mem g (working r)); [|discriminate].
  destruct (run_request _ _ _ _ _) as [[t out]| |]; try discriminate.
  simpl. f_equal. exact IH.
Qed.

(** What main has run through when it returns. *)
Lemma run_events_exec evs : forall r r',
  run_events workTime networkTime numGreenThreads splits iterations r evs
    = Returned r' ->
  exists pre post,
    evs = pre ++ post /\
    exec workTime networkTime numGreenThreads splits iterations r pre = Some r' /\
    done iterations r' = true.
Proof.
  induction evs as [|e evs IH]; intros r r' Hrun; simpl in Hrun;
    destruct (done iterations r) eqn:Hdone.
  - injection Hrun as <-. exists [], []. auto.
  - discriminate.
  - injection Hrun as <-. exists [], (e :: evs). auto.
  - destruct (step workTime networkTime numGreenThreads splits iterations r e)
      as [r1| |] eqn:Hstep; try discriminate.
    destruct (IH r1 r' Hrun) as (pre & post & -> & Hexec & Hd).
    exists (e :: pre), post. simpl. rewrite Hstep. auto.
Qed.

(** What main has run through when the program panics. *)
Lemma run_events_crash evs : forall r p,
  run_events workTime networkTime numGreenThreads splits iterations r evs
    = Panicked p ->
  exists pre e r1,
    exec workTime networkTime numGreenThreads splits iterations r pre = Some r1 /\
    step workTime networkTime numGreenThreads splits iterations r1 e = Crash p.
Proof.
  induction evs as [|e evs IH]; intros r p Hrun; simpl in Hrun;
    destruct (done iterations r) eqn:Hdone; try discriminate.
  destruct (step workTime networkTime numGreenThreads splits iterations r e)
    as [r1| |] eqn:Hstep; try discriminate.
  - destruct (IH r1 p Hrun) as (pre & e' & r2 & Hexec & Hcrash).
    exists (e :: pre), e', r2. simpl. rewrite Hstep. auto.
  - injection Hrun as <-. exists [], e, r. auto.
Qed.

End Channel.

(* ------------------------------------------------------------------ *)
(** ** Whole runs: what they collect, how they fail, that they end *)

(** The baseline returns unless its requests divide by zero. *)
Lemma baseline_returns workTime networkTime splits baselineIterations s :
  Go.add splits 1 <> 0 ->
  exists bd s', baseline workTime networkTime splits baselineIterations s
                = Ok (bd, s').
Proof.
  intros Hne. unfold baseline.
  rewrite (bind_Ok _ _ _ _ _ (time_Now_Ok s)).
  set (start := clock (world s)). clearbody start.
  generalize ({| world := advance (world s) (Z.pos (tick (world s))); sb := sb s |}).
  generalize 0 at 1.
  induction (Z.to_nat baselineIterations) as [|n IH]; intros i s0.
  - simpl. unfold bind, ret, time_Since. simpl. do 2 eexists. reflexivity.
  - simpl for_loop.
    assert (Q : Go.quo workTime (Go.add splits 1)
                = Some (Go.wrap64 (Z.quot workTime (Go.add splits 1)))).
    { unfold Go.quo. destruct (Z.eqb_spec (Go.add splits 1) 0);
        [contradiction|reflexivity]. }
    destruct (doWork_returns workTime networkTime splits (request_name i) _ s0 Q)
      as (elapsed & s1 & ? & ? & ? & ? & E & _).
    unfold bind at 1. unfold bind at 1. unfold bind at 1. rewrite E.
    unfold ret at 1. apply IH.
Qed.

Lemma baseline_panics workTime networkTime splits baselineIterations s :
  Go.add splits 1 = 0 -> 1 <= baselineIterations ->
  baseline workTime networkTime splits baselineIterations s
  = Panics DivideByZero.
Proof.
  intros H0 Hn. unfold baseline.
  rewrite (bind_Ok _ _ _ _ _ (time_Now_Ok s)).
  destruct (Z.to_nat baselineIterations) as [|n] eqn:En; [lia|].
  simpl for_loop.
  unfold bind at 1. unfold bind at 1. unfold bind at 1.
  rewrite (doWork_divide_by_zero _ _ _ _ _ H0). reflexivity.
Qed.

Lemma run_request_outcome workTime networkTime splits name w :
  (exists t out, run_request workTime networkTime splits name w = Ok (t, out)
                 /\ Go.add splits 1 <> 0) \/
  (run_request workTime networkTime splits name w = Panics DivideByZero
   /\ Go.add splits 1 = 0).
Proof.
  unfold run_request.
  destruct (Z.eq_dec (Go.add splits 1) 0) as [E0|Hne].
  - right. rewrite (doWork_divide_by_zero _ _ _ _ _ E0). auto.
  - left.
    assert (Q : Go.quo workTime (Go.add splits 1)
                = Some (Go.wrap64 (Z.quot workTime (Go.add splits 1)))).
    { unfold Go.quo. destruct (Z.eqb_spec (Go.add splits 1) 0);
        [contradiction|reflexivity]. }
    destruct (doWork_returns workTime networkTime splits name _
                {| world := w; sb := [] |} Q)
      as (elapsed & s' & ? & ? & ? & ? & E' & _).
    rewrite E'. eauto.
Qed.

Section Liveness.

Variables workTime networkTime numGreenThreads splits iterations : Z.
Hypothesis iterations_usable : 1 <= iterations <= Go.max_int64.
Hypothesis limit_usable : 1 <= numGreenThreads.
Hypothesis splits_usable : Go.add splits 1 <> 0.

(** A run that is not over can take a step. *)
Lemma tight_progress r :
  tight iterations r -> done iterations r = false ->
  exists e r',
    is_step e = true /\
    step workTime networkTime numGreenThreads splits iterations r e = Next r'.
Proof.
  unfold tight, done.
  intros (Hnd & Hall & Hcur & Hx & Hxit & Hcl & Hsent & Hms) Hdone.
  destruct (working r) as [|g ws] eqn:Hw.
  - destruct (sent r) as [|g ss] eqn:Hs.
    + simpl in *. destruct (Z_lt_ge_dec (x r) iterations) as [Hlt|Hge].
      * exists Launch. eexists. split; [reflexivity|]. unfold step.
        destruct (Z.ltb_spec (x r) iterations); [|lia].
        destruct (Z.leb_spec 1 (numGreenThreads - cur r)); [|lia].
        reflexivity.
      * destruct (c r) as [|res rest] eqn:Hc.
        -- exfalso. simpl in *.
           destruct (Z.leb_spec iterations (x r)); [|lia].
           assert (closed r = true) by (apply Hcl; lia).
           rewrite H0 in Hdone. discriminate.
        -- exists Receive. eexists. split; [reflexivity|]. unfold step.
           destruct (Z.leb_spec iterations (x r)); [|lia].
           rewrite Hc.
           destruct (closed r) eqn:Hclosed.
           ++ exfalso. assert (iterations <= Z.of_nat (List.length (received r)))
                by (apply Hcl; reflexivity).
              simpl in Hx. lia.
           ++ rewrite andb_false_r. reflexivity.
    + exists (Release g). eexists. split; [reflexivity|]. unfold step.
      rewrite Hs. unfold mem. simpl. rewrite Z.eqb_refl. simpl.
      destruct (Z.ltb_spec (cur r - 1) 0); [simpl in Hcur; lia|]. reflexivity.
  - destruct (run_request_outcome workTime networkTime splits (request_name g) (main r))
      as [(t & out & E & _)|[_ E0]]; [|contradiction].
    exists (Work g (main r)). eexists. split; [reflexivity|]. unfold step.
    rewrite Hw. unfold mem. simpl. rewrite Z.eqb_refl. simpl.
    rewrite E.
    destruct (closed r) eqn:Hclosed.
    + exfalso. assert (iterations <= Z.of_nat (List.length (received r)))
        by (apply Hcl; reflexivity).
      simpl in Hx. lia.
    + destruct (Z.ltb_spec (Z.of_nat (List.length (c r))) iterations);
        [reflexivity|]. simpl in Hx. lia.
Qed.

(** From any state of a run, some schedule leads main to its return. *)
Lemma tight_returns (n : nat) : forall r,
  tight iterations r ->
  4 * iterations - progress r <= Z.of_nat n ->
  exists evs r',
    run_events workTime networkTime numGreenThreads splits iterations r evs
    = Returned r'.
Proof.
  induction n as [|n IH]; intros r Ht Hn;
    destruct (done iterations r) eqn:Hdone.
  - exists [], r. simpl. rewrite Hdone. reflexivity.
  - destruct (tight_progress r Ht Hdone) as (e & r1 & He & Hstep).
    destruct (step_tight workTime networkTime numGreenThreads splits iterations
                ltac:(lia) r e r1 Ht Hstep) as [Ht1 Hp].
    rewrite He in Hp. pose proof (progress_bound iterations r1 Ht1). lia.
  - exists [], r. simpl. rewrite Hdone. reflexivity.
  - destruct (tight_progress r Ht Hdone) as (e & r1 & He & Hstep).
    destruct (step_tight workTime networkTime numGreenThreads splits iterations
                ltac:(lia) r e r1 Ht Hstep) as [Ht1 Hp].
    rewrite He in Hp.
    destruct (IH r1 Ht1 ltac:(lia)) as (evs & r' & Hrun).
    exists (e :: evs), r'. simpl. rewrite Hdone, Hstep. exact Hrun.
Qed.

End Liveness.

(** A run that returns has passed through a state where [range c] is over,
    reached from the initial state by steps that keep the counters. *)
Lemma returned_tight
    workTime networkTime numGreenThreads splits iterations w evs r :
  iterations <= Go.max_int64 ->
  0 <= iterations ->
  run_events workTime networkTime numGreenThreads splits iterations
    (initial w) evs = Returned r ->
  exists pre post,
    evs = pre ++ post /\
    exec workTime networkTime numGreenThreads splits iterations
      (initial w) pre = Some r /\
    done iterations r = true /\
    tight iterations r /\
    c r = [] /\
    Z.of_nat (List.length (received r)) = iterations /\
    steps pre <= 4 * iterations.
Proof.
  intros Hmax H0 Hrun.
  destruct (Z.eq_dec iterations 0) as [E0|Hne].
  { exfalso. revert Hrun. apply run_events_never_returns. left. lia. }
  destruct (run_events_exec _ _ _ _ _ _ _ _ Hrun) as (pre & post & Hevs & Hexec & Hdone).
  assert (Ht0 : tight iterations (initial w)) by (apply initial_tight; lia).
  destruct (exec_tight _ _ _ _ _ Hmax _ _ _ Ht0 Hexec) as [Ht Hp].
  pose proof (progress_bound _ _ Ht) as Hb.
  assert (Hc : c r = []).
  { unfold done in Hdone. destruct (c r); [reflexivity|].
    rewrite andb_false_r in Hdone. discriminate. }
  exists pre, post.
  split; [exact Hevs|]. split; [exact Hexec|]. split; [exact Hdone|].
  split; [exact Ht|]. split; [exact Hc|]. split.
  - unfold done in Hdone. rewrite Hc, andb_true_r in Hdone.
    destruct Ht as (_ & _ & _ & Hx & Hxit & Hcl & _).
    apply andb_true_iff in Hdone as [Hle Hclosed].
    apply Hcl in Hclosed. rewrite Hc in Hx. cbn [List.length] in Hx. lia.
  - unfold progress in Hp at 2. simpl in Hp. lia.
Qed.

(** Property X5.  For every run of the benchmark that returns, the response
    times of the result are the durations of the collected results, in the
    order they were received, each converted to milliseconds as a
    [float64]; there are exactly [iterations] of them, and the result
    echoes the configuration. *)
Theorem response_times_are_latencies
    workTime networkTime numGreenThreads splits baselineIterations iterations
    w evs m :
  iterations <= Go.max_int64 ->
  runBenchmark_measured workTime networkTime numGreenThreads splits
    baselineIterations iterations w evs = Returned m ->
  ResponseTimesMs (benchmarkResult m) = map latency_ms (collected m) /\
  Z.of_nat (List.length (ResponseTimesMs (benchmarkResult m))) = iterations /\
  WorkTime (benchmarkResult m) = workTime /\
  NetworkTime (benchmarkResult m) = networkTime /\
  Iterations (benchmarkResult m) = iterations /\
  NumCoroutines (benchmarkResult m) = numGreenThreads.
Proof.
  intros Hmax. unfold runBenchmark_measured.
  destruct (baseline _ _ _ _ _) as [[bd s1]| |]; try discriminate.
  destruct (Z.ltb_spec iterations 0); [discriminate|].
  destruct (run_events _ _ _ _ _ _ evs) as [r| |] eqn:Hrun; try discriminate.
  intros [= <-]. simpl.
  destruct (returned_tight _ _ _ _ _ _ _ _ Hmax ltac:(lia) Hrun)
    as (pre & post & _ & _ & _ & Ht & _ & Hlen & _).
  destruct Ht as (_ & _ & _ & _ & _ & _ & _ & Hms).
  rewrite Hms, length_map. repeat split; try reflexivity. exact Hlen.
Qed.

Lemma response_times_are_latencies_witness :
  exists m,
    runBenchmark_measured 5000000 55000000 1 5 1 7 (mkWorld 0 1000)
      seven_requests = Returned m /\
    ResponseTimesMs (benchmarkResult m) = map latency_ms (collected m) /\
    Z.of_nat (List.length (ResponseTimesMs (benchmarkResult m))) = 7.
Proof.
  destruct seven_requests_returns as (m & E & _).
  exists m. split; [exact E|].
  destruct (response_times_are_latencies 5000000 55000000 1 5 1 7
              (mkWorld 0 1000) seven_requests m ltac:(unfold Go.max_int64; lia) E)
    as (H1 & H2 & _).
  split; assumption.
Defined.

Lemma In_requests n g : 0 <= g < n -> In g (requests n).
Proof.
  intros H. unfold requests.
  rewrite <- (Z2Nat.id g) by lia. apply in_map. apply in_seq. lia.
Qed.

Lemma requests_length n : 0 <= n -> Z.of_nat (List.length (requests n)) = n.
Proof.
  intros H. unfold requests. rewrite length_map, length_seq. lia.
Qed.

(** Property X6.  For every run of the benchmark that returns, the results
    collected are exactly the results that the goroutines sent, in the order
    of the sends, and the goroutines that ran a request are the requests
    [0 .. iterations-1], each exactly once: no request is lost, repeated or
    received out of order. *)
Theorem every_request_runs_once
    workTime networkTime numGreenThreads splits baselineIterations iterations
    w evs m :
  iterations <= Go.max_int64 ->
  runBenchmark_measured workTime networkTime numGreenThreads splits
    baselineIterations iterations w evs = Returned m ->
  exists pre post,
    evs = pre ++ post /\
    collected m = sends workTime networkTime splits pre /\
    NoDup (workers pre) /\
    Permutation (workers pre) (requests iterations).
Proof.
  intros Hmax. unfold runBenchmark_measured.
  destruct (baseline _ _ _ _ _) as [[bd s1]| |]; try discriminate.
  destruct (Z.ltb_spec iterations 0); [discriminate|].
  destruct (run_events _ _ _ _ _ _ evs) as [r| |] eqn:Hrun; try discriminate.
  intros [= <-]. simpl.
  destruct (returned_tight _ _ _ _ _ _ _ _ Hmax ltac:(lia) Hrun)
    as (pre & post & Hevs & Hexec & _ & Ht & Hc & Hlen & _).
  exists pre, post.
  pose proof (exec_fifo _ _ _ _ _ _ _ _ Hexec) as Hfifo.
  rewrite Hc, app_nil_r in Hfifo. simpl in Hfifo.
  pose proof (workers_sends_length _ _ _ _ _ _ _ _ Hexec) as Hws.
  assert (Hd0 : distinct (initial (advance (world s1) (Z.pos (tick (world s1))))) []).
  { unfold distinct. simpl. repeat split; [lia|constructor|constructor]. }
  pose proof (exec_distinct _ _ _ _ _ _ _ _ _ Hmax Hd0 Hexec) as (_ & Hnd & Hall).
  simpl in Hnd, Hall.
  apply NoDup_app_remove_r in Hnd.
  assert (Hin : forall g, In g (workers pre) -> 0 <= g < iterations).
  { intros g Hg. rewrite Forall_forall in Hall.
    specialize (Hall g (in_or_app _ _ _ (or_introl Hg))).
    destruct Ht as (_ & _ & _ & _ & Hxit & _). lia. }
  split; [exact Hevs|]. split; [exact Hfifo|]. split; [exact Hnd|].
  apply NoDup_Permutation_bis; [exact Hnd| |].
  - apply Nat2Z.inj_le. rewrite requests_length by lia.
    rewrite <- Hws, <- Hfifo. lia.
  - intros g Hg. apply In_requests. apply Hin. exact Hg.
Qed.

Lemma every_request_runs_once_witness :
  exists m pre post,
    runBenchmark_measured 5000000 55000000 1 5 1 7 (mkWorld 0 1000)
      seven_requests = Returned m /\
    seven_requests = pre ++ post /\
    collected m = sends 5000000 55000000 5 pre /\
    NoDup (workers pre) /\
    Permutation (workers pre) (requests 7).
Proof.
  destruct seven_requests_returns as (m & E & _).
  exists m.
  destruct (every_request_runs_once 5000000 55000000 1 5 1 7
              (mkWorld 0 1000) seven_requests m ltac:(unfold Go.max_int64; lia) E)
    as (pre & post & H1 & H2 & H3 & H4).
  exists pre, post. repeat split; assumption.
Defined.

Lemma exec_idle workTime networkTime numGreenThreads splits iterations evs :
  iterations <= 0 \/ numGreenThreads <= 0 ->
  forall r r',
    idle r ->
    exec workTime networkTime numGreenThreads splits iterations r evs = Some r' ->
    idle r'.
Proof.
  intros Hcfg. induction evs as [|e evs IH]; intros r r' Hi Hexec; simpl in Hexec.
  - injection Hexec as <-. exact Hi.
  - destruct (step _ _ _ _ _ r e) as [r1| |] eqn:Hstep; try discriminate.
    apply (IH r1 r' (step_idle _ _ _ _ _ _ _ _ Hcfg Hi Hstep) Hexec).
Qed.

(** The only step that can crash a run whose counters are kept is a
    request that divides by zero. *)
Lemma tight_crash workTime networkTime numGreenThreads splits iterations r e p :
  tight iterations r ->
  step workTime networkTime numGreenThreads splits iterations r e = Crash p ->
  p = DivideByZero /\ Go.add splits 1 = 0.
Proof.
  unfold tight, step.
  intros (Hnd & Hall & Hcur & Hx & Hxit & Hcl & Hsent & Hms) Hstep.
  destruct e as [|g w|g| |d].
  - destruct (_ && _); discriminate.
  - destruct (mem g (working r)) eqn:Hmem; [|discriminate].
    destruct (run_request_outcome workTime networkTime splits (request_name g) w)
      as [(t & out & E & _)|[E E0]]; rewrite E in Hstep.
    + exfalso. destruct (closed r) eqn:Hclosed.
      * assert (iterations <= Z.of_nat (List.length (received r)))
          by (apply Hcl; reflexivity).
        destruct (working r) eqn:Hw; [discriminate|].
        cbn [List.length] in Hx. lia.
      * destruct (_ <? _); discriminate.
    + injection Hstep as <-. auto.
  - exfalso. destruct (mem g (sent r)) eqn:Hmem; [|discriminate].
    destruct (Z.ltb_spec (cur r - 1) 0); [|discriminate].
    destruct (sent r) eqn:Hs; [discriminate|].
    cbn [List.length] in Hcur. lia.
  - exfalso. destruct (iterations <=? x r); [|discriminate].
    destruct (c r) as [|res rest] eqn:Hc; [discriminate|].
    destruct (closed r) eqn:Hclosed.
    + assert (iterations <= Z.of_nat (List.length (received r)))
        by (apply Hcl; reflexivity).
      cbn [List.length] in Hx. lia.
    + rewrite andb_false_r in Hstep. discriminate.
  - discriminate.
Qed.

(** The concurrent phase panics only by a request that divides by zero. *)
Lemma run_events_panics
    workTime networkTime numGreenThreads splits iterations w evs p :
  iterations <= Go.max_int64 ->
  0 <= iterations ->
  run_events workTime networkTime numGreenThreads splits iterations
    (initial w) evs = Panicked p ->
  p = DivideByZero /\ Go.add splits 1 = 0.
Proof.
  intros Hmax H0 Hrun.
  destruct (run_events_crash _ _ _ _ _ _ _ _ Hrun)
    as (pre & e & r1 & Hexec & Hstep).
  destruct (Z.eq_dec iterations 0) as [E0|Hne].
  - exfalso.
    assert (Hi : idle r1).
    { refine (exec_idle _ _ numGreenThreads _ iterations _ _ _ _ _ Hexec).
      - left. lia.
      - unfold idle. simpl. repeat split; reflexivity. }
    destruct Hi as (Hx & Hcur & Hw & Hs & Hc & Hcl).
    unfold step in Hstep. destruct e as [|g w'|g| |d].
    + destruct (_ && _); discriminate.
    + rewrite Hw in Hstep. discriminate.
    + rewrite Hs in Hstep. discriminate.
    + rewrite Hc in Hstep. destruct (_ <=? _); discriminate.
    + discriminate.
  - assert (Ht0 : tight iterations (initial w))
      by (apply initial_tight; lia).
    destruct (exec_tight _ _ _ _ _ Hmax _ _ _ Ht0 Hexec) as [Ht _].
    exact (tight_crash _ _ _ _ _ _ _ _ Ht Hstep).
Qed.

(** Property X7.  The benchmark panics only on its configuration: whatever the
    schedule, a run panics only by dividing by zero, which takes
    [splits = -1], or at making the channel.  In particular no goroutine
    sends on the closed channel, the channel is never closed twice, and no
    permit is released that is not held. *)
Theorem runBenchmark_panics_only_on_configuration
    workTime networkTime numGreenThreads splits baselineIterations iterations
    w evs p :
  Go.in_int64 splits ->
  iterations <= Go.max_int64 ->
  runBenchmark workTime networkTime numGreenThreads splits
    baselineIterations iterations w evs = Panicked p ->
  (p = DivideByZero /\ splits = -1) \/ p = ChanSizeOutOfRange.
Proof.
  intros Hsplits Hmax. unfold runBenchmark, runBenchmark_measured.
  destruct (baseline _ _ _ _ _) as [[bd s1]|q|] eqn:Hbase.
  - destruct (Z.ltb_spec iterations 0).
    + intros [= <-]. right. reflexivity.
    + destruct (run_events _ _ _ _ _ _ evs) as [r|q|] eqn:Hrun; try discriminate.
      intros [= ->]. left.
      destruct (run_events_panics _ _ _ _ _ _ _ _ Hmax ltac:(lia) Hrun)
        as [-> E0].
      split; [reflexivity|]. apply add_1_zero; assumption.
  - intros [= <-]. left.
    destruct (Z.eq_dec (Go.add splits 1) 0) as [E0|Hne].
    + destruct (Z_le_gt_dec 1 baselineIterations) as [Hb|Hb].
      * rewrite (baseline_panics _ _ _ _ _ E0 Hb) in Hbase.
        injection Hbase as <-. split; [reflexivity|].
        apply add_1_zero; assumption.
      * exfalso. unfold baseline in Hbase.
        rewrite (bind_Ok _ _ _ _ _ (time_Now_Ok _)) in Hbase.
        replace (Z.to_nat baselineIterations) with O in Hbase by lia.
        discriminate.
    + exfalso.
      destruct (baseline_returns workTime networkTime splits baselineIterations
                  {| world := w; sb := [] |} Hne) as (bd & s' & E).
      rewrite E in Hbase. discriminate.
  - discriminate.
Qed.

Lemma baseline_divides_by_zero :
  runBenchmark 5000000 55000000 1 (-1) 1 7 (mkWorld 0 1000) []
  = Panicked DivideByZero.
Proof. vm_compute. reflexivity. Qed.

Lemma runBenchmark_panics_only_on_configuration_witness :
  runBenchmark 5000000 55000000 1 (-1) 1 7 (mkWorld 0 1000) []
    = Panicked DivideByZero /\
  ((DivideByZero = DivideByZero /\ -1 = -1) \/
   DivideByZero = ChanSizeOutOfRange).
Proof.
  split; [exact baseline_divides_by_zero|].
  apply (runBenchmark_panics_only_on_configuration
           5000000 55000000 1 (-1) 1 7 (mkWorld 0 1000) [] DivideByZero).
  - unfold Go.in_int64, Go.min_int64, Go.max_int64. lia.
  - unfold Go.max_int64. lia.
  - exact baseline_divides_by_zero.
Defined.

(** Property X8.  A run over a usable configuration (at least one iteration,
    at least one permit, [splits] not [-1]) never deadlocks: in every state
    reached from the start in which main has not left the receiving loop,
    some goroutine can take a step. *)
Theorem run_never_deadlocks
    workTime networkTime numGreenThreads splits iterations w evs r :
  1 <= iterations <= Go.max_int64 ->
  1 <= numGreenThreads ->
  Go.in_int64 splits -> splits <> -1 ->
  exec workTime networkTime numGreenThreads splits iterations
    (initial w) evs = Some r ->
  done iterations r = false ->
  exists e r',
    is_step e = true /\
    step workTime networkTime numGreenThreads splits iterations r e = Next r'.
Proof.
  intros Hit HL Hs Hne Hexec Hdone.
  assert (Ht0 : tight iterations (initial w)) by (apply initial_tight; lia).
  destruct (exec_tight _ _ _ _ _ (proj2 Hit) _ _ _ Ht0 Hexec) as [Ht _].
  apply tight_progress; try assumption.
  intros E0. apply Hne. apply add_1_zero; assumption.
Qed.

Lemma one_sent_reached :
  exec 5000000 55000000 1 5 7 (initial (mkWorld 0 1000))
    [Launch; Work 0 (mkWorld 0 1000)] = Some one_sent.
Proof. vm_compute. reflexivity. Qed.

Lemma run_never_deadlocks_witness :
  exists e r',
    is_step e = true /\
    step 5000000 55000000 1 5 7 one_sent e = Next r'.
Proof.
  apply (run_never_deadlocks 5000000 55000000 1 5 7 (mkWorld 0 1000)
           [Launch; Work 0 (mkWorld 0 1000)] one_sent).
  - unfold Go.max_int64. lia.
  - lia.
  - unfold Go.in_int64, Go.min_int64, Go.max_int64. lia.
  - lia.
  - exact one_sent_reached.
  - reflexivity.
Defined.

(** Property X9.  A run takes at most four steps for each iteration (a launch,
    a send, a release and a receive): no schedule of more than
    [4 * iterations] steps, the passing of time left aside, can be run.
    When main leaves the receiving loop at least three of them have been
    taken for each iteration: only releases can be left over. *)
Theorem run_takes_four_steps_each
    workTime networkTime numGreenThreads splits iterations w evs r :
  1 <= iterations <= Go.max_int64 ->
  exec workTime networkTime numGreenThreads splits iterations
    (initial w) evs = Some r ->
  steps evs <= 4 * iterations /\
  (done iterations r = true -> 3 * iterations <= steps evs).
Proof.
  intros Hit Hexec.
  assert (Ht0 : tight iterations (initial w)) by (apply initial_tight; lia).
  destruct (exec_tight _ _ _ _ _ (proj2 Hit) _ _ _ Ht0 Hexec) as [Ht Hp].
  pose proof (progress_bound _ _ Ht) as Hb.
  unfold progress in Hp at 2. simpl in Hp.
  split; [lia|].
  intros Hdone. unfold done in Hdone.
  destruct Ht as (_ & _ & Hcur & Hx & Hxit & Hcl & Hsent & _).
  destruct (c r) eqn:Hc; [|rewrite andb_false_r in Hdone; discriminate].
  rewrite andb_true_r in Hdone. apply andb_true_iff in Hdone as [Hle Hclosed].
  apply Hcl in Hclosed. apply Z.leb_le in Hle.
  unfold progress in Hp. rewrite Hc in Hp. cbn [List.length] in *. lia.
Qed.

Lemma seven_requests_run :
  exists r,
    exec 5000000 55000000 1 5 7 (initial (mkWorld 0 1000)) seven_requests
      = Some r /\
    done 7 r = true.
Proof. vm_compute. eexists. split; reflexivity. Qed.

Lemma run_takes_four_steps_each_witness :
  exists r,
    exec 5000000 55000000 1 5 7 (initial (mkWorld 0 1000)) seven_requests
      = Some r /\
    steps seven_requests <= 4 * 7 /\
    (done 7 r = true -> 3 * 7 <= steps seven_requests).
Proof.
  destruct seven_requests_run as (r & E & _).
  exists r. split; [exact E|].
  apply (run_takes_four_steps_each 5000000 55000000 1 5 7 (mkWorld 0 1000)
           seven_requests r).
  - unfold Go.max_int64. lia.
  - exact E.
Defined.

Lemma exec_run_events
    workTime networkTime numGreenThreads splits iterations pre post :
  forall r r1 r',
    exec workTime networkTime numGreenThreads splits iterations r pre = Some r1 ->
    run_events workTime networkTime numGreenThreads splits iterations r1 post
      = Returned r' ->
    exists r'',
      run_events workTime networkTime numGreenThreads splits iterations
        r (pre ++ post) = Returned r''.
Proof.
  induction pre as [|e pre IH]; intros r r1 r' Hexec Hrun; simpl in Hexec.
  - injection Hexec as <-. exists r'. exact Hrun.
  - destruct (step _ _ _ _ _ r e) as [r2| |] eqn:Hstep; try discriminate.
    destruct (IH r2 r1 r' Hexec Hrun) as (r'' & H).
    simpl. destruct (done iterations r).
    + eexists. reflexivity.
    + rewrite Hstep. exists r''. exact H.
Qed.

(** Property X10.  Over a usable configuration every run can be finished:
    whatever steps have been taken, some continuation of the schedule leads
    main out of the receiving loop. *)
Theorem run_can_always_finish
    workTime networkTime numGreenThreads splits iterations w pre r :
  1 <= iterations <= Go.max_int64 ->
  1 <= numGreenThreads ->
  Go.in_int64 splits -> splits <> -1 ->
  exec workTime networkTime numGreenThreads splits iterations
    (initial w) pre = Some r ->
  exists post r',
    run_events workTime networkTime numGreenThreads splits iterations
      (initial w) (pre ++ post) = Returned r'.
Proof.
  intros Hit HL Hs Hne Hexec.
  assert (Hadd : Go.add splits 1 <> 0).
  { intros E0. apply Hne. apply add_1_zero; assumption. }
  assert (Ht0 : tight iterations (initial w)) by (apply initial_tight; lia).
  destruct (exec_tight _ _ _ _ _ (proj2 Hit) _ _ _ Ht0 Hexec) as [Ht _].
  pose proof (progress_bound _ _ Ht) as Hb.
  destruct (tight_returns workTime networkTime numGreenThreads splits iterations
              Hit HL Hadd (Z.to_nat (4 * iterations)) r Ht ltac:(lia))
    as (post & r' & Hrun).
  destruct (exec_run_events _ _ _ _ _ _ _ _ _ _ Hexec Hrun) as (r'' & H).
  exists post, r''. exact H.
Qed.

Lemma run_can_always_finish_witness :
  exists post r',
    run_events 5000000 55000000 1 5 7 (initial (mkWorld 0 1000))
      ([Launch; Work 0 (mkWorld 0 1000)] ++ post) = Returned r'.
Proof.
  apply (run_can_always_finish 5000000 55000000 1 5 7 (mkWorld 0 1000)
           [Launch; Work 0 (mkWorld 0 1000)] one_sent).
  - unfold Go.max_int64. lia.
  - lia.
  - unfold Go.in_int64, Go.min_int64, Go.max_int64. lia.
  - lia.
  - exact one_sent_reached.
Defined.

(** A usable configuration has a schedule under which the run returns. *)
Lemma usable_run
    workTime networkTime numGreenThreads splits baselineIterations iterations w :
  1 <= iterations <= Go.max_int64 ->
  1 <= numGreenThreads ->
  Go.add splits 1 <> 0 ->
  exists evs result,
    runBenchmark workTime networkTime numGreenThreads splits
      baselineIterations iterations w evs = Returned result.
Proof.
  intros Hit HL Hadd.
  destruct (baseline_returns workTime networkTime splits baselineIterations
              {| world := w; sb := [] |} Hadd) as (bd & s1 & Hbase).
  set (w2 := advance (world s1) (Z.pos (tick (world s1)))).
  assert (Ht0 : tight iterations (initial w2)) by (apply initial_tight; lia).
  pose proof (progress_bound _ _ Ht0) as Hb.
  destruct (tight_returns workTime networkTime numGreenThreads splits iterations
              Hit HL Hadd (Z.to_nat (4 * iterations)) (initial w2) Ht0 ltac:(lia))
    as (evs & r' & Hrun).
  exists evs. unfold runBenchmark, runBenchmark_measured.
  rewrite Hbase. destruct (Z.ltb_spec iterations 0); [lia|].
  fold w2. rewrite Hrun. eexists. reflexivity.
Qed.

(** Property X11.  Every usable configuration (at least one iteration, at
    least one permit, [splits] not [-1]) has a schedule under which
    [runBenchmark] returns a result, whatever the clock. *)
Theorem usable_configuration_can_return
    workTime networkTime numGreenThreads splits baselineIterations iterations w :
  1 <= iterations <= Go.max_int64 ->
  1 <= numGreenThreads ->
  Go.in_int64 splits -> splits <> -1 ->
  exists evs result,
    runBenchmark workTime networkTime numGreenThreads splits
      baselineIterations iterations w evs = Returned result.
Proof.
  intros Hit HL Hs Hne. apply usable_run; try assumption.
  intros E0. apply Hne. apply add_1_zero; assumption.
Qed.

Lemma usable_configuration_can_return_witness :
  exists evs result,
    runBenchmark 5000000 55000000 1 5 1 7 (mkWorld 0 1000) evs
    = Returned result.
Proof.
  apply (usable_configuration_can_return 5000000 55000000 1 5 1 7
           (mkWorld 0 1000)).
  - unfold Go.max_int64. lia.
  - lia.
  - unfold Go.in_int64, Go.min_int64, Go.max_int64. lia.
  - lia.
Defined.

(** Property X12.  Two configurations make [runBenchmark] panic under every
    schedule: with [splits = -1] and at least one baseline iteration the
    first baseline request divides by zero, and with a negative number of
    iterations (and [splits] not [-1]) the channel cannot be made. *)
Theorem runBenchmark_panics_whatever_the_schedule
    workTime networkTime numGreenThreads splits baselineIterations iterations
    w evs :
  Go.in_int64 splits ->
  (splits = -1 -> 1 <= baselineIterations ->
   runBenchmark workTime networkTime numGreenThreads splits
     baselineIterations iterations w evs = Panicked DivideByZero) /\
  (splits <> -1 -> iterations < 0 ->
   runBenchmark workTime networkTime numGreenThreads splits
     baselineIterations iterations w evs = Panicked ChanSizeOutOfRange).
Proof.
  intros Hs. split.
  - intros E Hb. unfold runBenchmark, runBenchmark_measured.
    rewrite baseline_panics; [reflexivity| |exact Hb].
    apply add_1_zero; assumption.
  - intros Hne Hit.
    assert (Hadd : Go.add splits 1 <> 0).
    { intros E0. apply Hne. apply add_1_zero; assumption. }
    destruct (baseline_returns workTime networkTime splits baselineIterations
                {| world := w; sb := [] |} Hadd) as (bd & s1 & Hbase).
    unfold runBenchmark, runBenchmark_measured. rewrite Hbase.
    destruct (Z.ltb_spec iterations 0); [reflexivity|lia].
Qed.

Lemma runBenchmark_panics_whatever_the_schedule_witness :
  (-1 = -1 -> 1 <= 1 ->
   runBenchmark 5000000 55000000 1 (-1) 1 7 (mkWorld 0 1000) seven_requests
   = Panicked DivideByZero) /\
  (-1 <> -1 -> 7 < 0 ->
   runBenchmark 5000000 55000000 1 (-1) 1 7 (mkWorld 0 1000) seven_requests
   = Panicked ChanSizeOutOfRange).
Proof.
  apply (runBenchmark_panics_whatever_the_schedule 5000000 55000000 1 (-1) 1 7
           (mkWorld 0 1000) seven_requests).
  unfold Go.in_int64, Go.min_int64, Go.max_int64. lia.
Defined.

(* ------------------------------------------------------------------ *)
(** ** The sweep *)

Section SweepFacts.

Variable outputBenchmarkResult : BenchmarkResult -> bool -> bool.

Lemma sweep_safe ls : forall runs,
  match sweep outputBenchmarkResult ls runs with
  | RunPanicked _ => False
  | Swept results =>
      map NumCoroutines results = ls /\
      Forall (fun result =>
                Iterations result = 100 /\
                List.length (ResponseTimesMs result) = 100%nat) results
  | _ => True
  end.
Proof.
  assert (Hmax : 100 <= Go.max_int64) by (unfold Go.max_int64; lia).
  induction ls as [|l ls IH]; intros runs; simpl.
  - split; [reflexivity|constructor].
  - destruct (hd _ runs) as [w evs].
    unfold runBenchmark.
    destruct (runBenchmark_measured _ _ l 5 100 100 w evs) as [m|p|] eqn:Hm.
    + destruct (outputBenchmarkResult _ true); [|exact I].
      specialize (IH (tl runs)).
      destruct (sweep outputBenchmarkResult ls (tl runs)); try exact IH; try exact I.
      destruct IH as [IH1 IH2].
      destruct (collected_all _ _ _ _ _ _ _ _ _ Hmax Hm) as [Hlen Hms].
      unfold runBenchmark_measured in Hm.
      destruct (baseline _ _ _ _ _) as [[bd s1]| |]; try discriminate.
      destruct (100 <? 0); [discriminate|].
      destruct (run_events _ _ _ _ _ _ evs) as [r| |]; try discriminate.
      injection Hm as <-. simpl in *.
      split; [rewrite IH1; reflexivity|].
      constructor; [|exact IH2]. split; [reflexivity|].
      change (List.length (responseTimesMs r) = 100%nat). lia.
    + unfold runBenchmark_measured in Hm.
      destruct (baseline _ _ _ _ _) as [[bd s1]|q|] eqn:Hbase.
      * change (100 <? 0) with false in Hm.
        destruct (run_events _ _ _ _ _ _ evs) as [r|q|] eqn:Hrun;
          try discriminate.
        destruct (run_events_panics _ _ _ _ _ _ _ _ Hmax ltac:(lia) Hrun)
          as [_ E0].
        discriminate.
      * assert (Hadd : Go.add 5 1 <> 0) by discriminate.
        destruct (baseline_returns 5000000 55000000 5 100
                    {| world := w; sb := [] |} Hadd) as (bd & s1 & E).
        rewrite E in Hbase. discriminate.
      * discriminate.
    + exact I.
Qed.

End SweepFacts.

(** Property X13.  The sweep of [throughputBenchmark] is safe: whatever the
    clocks and the schedules of its twelve runs, no run panics; and when all
    twelve return and are reported, the results are those of the limits
    1, 3, ..., 23 in that order, each with its hundred response times, so
    that [plotThroughput] draws one point for each limit, at that limit. *)
Theorem throughputBenchmark_safe
    (outputBenchmarkResult : BenchmarkResult -> bool -> bool) runs :
  (forall p, throughputBenchmark outputBenchmarkResult runs <> RunPanicked p) /\
  (forall results,
     throughputBenchmark outputBenchmarkResult runs = Swept results ->
     map NumCoroutines results = limits /\
     map fst (throughput_points results) = map Go.float64 limits /\
     Forall (fun result =>
               Iterations result = 100 /\
               List.length (ResponseTimesMs result) = 100%nat) results).
Proof.
  unfold throughputBenchmark.
  pose proof (sweep_safe outputBenchmarkResult limits runs) as H.
  split.
  - intros p E. rewrite E in H. exact H.
  - intros results E. rewrite E in H. destruct H as [H1 H2].
    split; [exact H1|]. split; [|exact H2].
    rewrite <- H1. unfold throughput_points. rewrite !map_map. reflexivity.
Qed.

(** Every limit of the sweep is a usable configuration: each of the runs
    can be scheduled to return. *)
Lemma sweep_can_return (outputBenchmarkResult : BenchmarkResult -> bool -> bool)
    (ws : nat -> World) ls :
  (forall result, outputBenchmarkResult result true = true) ->
  Forall (fun l => 1 <= l) ls ->
  exists runs results,
    map fst runs = map ws (seq 0 (List.length ls)) /\
    sweep outputBenchmarkResult ls runs = Swept results.
Proof.
  intros Hout. revert ws.
  induction ls as [|l ls IH]; intros ws Hls.
  - exists [], []. split; reflexivity.
  - inversion Hls as [|? ? Hl Hls']; subst.
    destruct (IH (fun i => ws (S i)) Hls') as (runs & results & Hws & Hsweep).
    destruct (usable_run (5 * Millisecond) (55 * Millisecond) l 5 100 100 (ws O))
      as (evs & result & Hrun).
    + unfold Go.max_int64. lia.
    + exact Hl.
    + discriminate.
    + exists ((ws O, evs) :: runs), (result :: results). split.
      * simpl. rewrite Hws, <- seq_shift, map_map. reflexivity.
      * cbn [sweep hd tl]. rewrite Hrun, Hout, Hsweep. reflexivity.
Qed.

(** Property X14.  [throughputBenchmark] can complete: whatever the clock at
    the start of each of its twelve runs, there are schedules under which
    every run returns and, as long as the reporting does not panic, the
    sweep reaches its plots with twelve results. *)
Theorem throughputBenchmark_can_complete
    (outputBenchmarkResult : BenchmarkResult -> bool -> bool)
    (ws : nat -> World) :
  (forall result, outputBenchmarkResult result true = true) ->
  exists runs results,
    map fst runs = map ws (seq 0 12) /\
    throughputBenchmark outputBenchmarkResult runs = Swept results /\
    List.length results = 12%nat.
Proof.
  intros Hout.
  destruct (sweep_can_return outputBenchmarkResult ws limits Hout)
    as (runs & results & Hws & Hsweep).
  { unfold limits. repeat constructor; lia. }
  exists runs, results. split; [exact Hws|]. split; [exact Hsweep|].
  pose proof (sweep_safe outputBenchmarkResult limits runs) as H.
  rewrite Hsweep in H. destruct H as [H _].
  rewrite <- (length_map NumCoroutines), H. reflexivity.
Qed.

Lemma throughputBenchmark_can_complete_witness :
  exists runs results,
    map fst runs = map (fun _ => mkWorld 0 1000) (seq 0 12) /\
    throughputBenchmark (fun _ _ => true) runs = Swept results /\
    List.length results = 12%nat.
Proof.
  apply (throughputBenchmark_can_complete (fun _ _ => true)
           (fun _ => mkWorld 0 1000)).
  reflexivity.
Defined.
